(** * Obsidian AI assistant: project store and backend dispatch

    A shallow embedding of [project_manager.py] (the classes
    [ConversationProject] and [ProjectManager]) and of the dispatch layer of
    [app.py] ([get_api_key], [send_message_to_openai],
    [send_message_to_huggingface], [send_message_to_ai] and the input
    handling of [render_chat_interface]), with the properties the
    specification states about them.

    Conventions.
    - A Python [str] is a [string]; a Python [int] is a [Z]; the float
      literals [0.5] and [0.7] are the rationals they denote.
    - A method that mutates [self] takes the object and returns the new one;
      a method that also returns a value returns a pair.
    - A [dict] is an association list in insertion order: Python dicts
      enumerate their keys in the order of first insertion.
    - Project names are strings, as the docstrings of [ProjectManager]
      require, and a message always has its two fields.
    - Calls to a provider are events of a small program type, so that what
      is sent, what is raised and what is caught can be stated. *)

From Stdlib Require Import List String Ascii ZArith QArith Bool Lia.
From Stdlib Require Import DecimalString.
Import ListNotations.

Local Open Scope string_scope.
Local Open Scope Z_scope.

(* ================================================================= *)
(** ** Python values used by both files *)

(** An exception object, as far as the code looks at it: whether it is an
    instance of [requests.exceptions.Timeout], and [str(error)].  It ranges
    over the subclasses of [Exception]. *)
Record Exn : Type := mkExn {
  exn_is_timeout : bool;
  exn_text : string
}.

(** The outcome of evaluating an expression that may raise. *)
Inductive PyResult (A : Type) : Type :=
| Ok (a : A)
| Raised (e : Exn).
Arguments Ok {A} a.
Arguments Raised {A} e.

Definition IndexError : Exn :=
  {| exn_is_timeout := false; exn_text := "list index out of range" |}.

(** [len(l)] *)
Definition len {A : Type} (l : list A) : Z := Z.of_nat (List.length l).

(** [l[i]]: a negative index counts from the end; out of range raises. *)
Definition py_index {A : Type} (l : list A) (i : Z) : PyResult A :=
  let j := if i <? 0 then i + len l else i in
  if j <? 0 then Raised IndexError
  else match nth_error l (Z.to_nat j) with
       | Some x => Ok x
       | None => Raised IndexError
       end.

(** [l[start:]]: a negative start counts from the end, and the bounds are
    clamped to [0 .. len(l)], so the slice never raises. *)
Definition py_slice_from {A : Type} (l : list A) (start : Z) : list A :=
  let s := if start <? 0 then Z.max (start + len l) 0 else Z.min start (len l) in
  skipn (Z.to_nat s) l.

(* ----------------------------------------------------------------- *)
(** *** Dictionaries with string keys *)

Section PyDict.
Context {V : Type}.

Definition dict : Type := list (string * V).

(** [list(d.keys())] *)
Definition dict_keys (d : dict) : list string := map fst d.

(** [k in d] *)
Definition dict_mem (k : string) (d : dict) : bool :=
  existsb (fun kv => String.eqb (fst kv) k) d.

(** [d[k]], for a key that is present *)
Fixpoint dict_get (k : string) (d : dict) : option V :=
  match d with
  | [] => None
  | (k', v) :: d' => if String.eqb k' k then Some v else dict_get k d'
  end.

(** [d[k] = v]: an existing key keeps its position, a new key goes last. *)
Fixpoint dict_set (k : string) (v : V) (d : dict) : dict :=
  match d with
  | [] => [(k, v)]
  | (k', v') :: d' =>
      if String.eqb k' k then (k', v) :: d' else (k', v') :: dict_set k v d'
  end.

(** [del d[k]], for a key that is present: the other entries keep their
    order. *)
Definition dict_del (k : string) (d : dict) : dict :=
  filter (fun kv => negb (String.eqb (fst kv) k)) d.

(** [len(d)] *)
Definition dict_len (d : dict) : Z := len d.

(** The carrier represents a dict when no key occurs twice. *)
Definition dict_wf (d : dict) : Prop := NoDup (dict_keys d).
End PyDict.
Arguments dict V : clear implicits.

(* ================================================================= *)
(** ** project_manager.py *)

(** A message is the dict [{"role": role, "content": content}]. *)
Record Message : Type := mkMessage {
  role : string;
  content : string
}.

(** *** class ConversationProject *)

Record ConversationProject : Type := mkProject {
  name : string;
  messages : list Message;
  created_date : string;
  deep_research_mode : bool;
  message_count : Z
}.

(** [ConversationProject(project_name)]; [now] is the reading of
    [datetime.now().strftime(...)] at construction. *)
Definition ConversationProject_init (project_name now : string)
  : ConversationProject :=
  {| name := project_name;
     messages := [];
     created_date := now;
     deep_research_mode := false;
     message_count := 0 |}.

Definition add_message (self : ConversationProject) (role content : string)
  : ConversationProject :=
  let new_message := {| role := role; content := content |} in
  {| name := name self;
     messages := (messages self ++ [new_message])%list;
     created_date := created_date self;
     deep_research_mode := deep_research_mode self;
     message_count := message_count self + 1 |}.

(** [copy.deepcopy(self.messages)]: values are immutable here, so the copy
    is the list itself. *)
Definition get_messages (self : ConversationProject) : list Message :=
  messages self.

Definition clear_messages (self : ConversationProject) : ConversationProject :=
  {| name := name self;
     messages := [];
     created_date := created_date self;
     deep_research_mode := deep_research_mode self;
     message_count := 0 |}.

Record Summary : Type := mkSummary {
  summary_name : string;
  summary_created_date : string;
  summary_message_count : Z;
  summary_deep_research_mode : bool
}.

Definition get_summary (self : ConversationProject) : Summary :=
  {| summary_name := name self;
     summary_created_date := created_date self;
     summary_message_count := message_count self;
     summary_deep_research_mode := deep_research_mode self |}.

Definition toggle_research_mode (self : ConversationProject)
  : ConversationProject :=
  {| name := name self;
     messages := messages self;
     created_date := created_date self;
     deep_research_mode := negb (deep_research_mode self);
     message_count := message_count self |}.

(** [get_last_message]: [None] of Python is [Ok None]; an [IndexError] of
    [self.messages[-1]] would be [Raised]. *)
Definition get_last_message (self : ConversationProject)
  : PyResult (option Message) :=
  if len (messages self) >? 0 then
    match py_index (messages self) (-1) with
    | Ok m => Ok (Some m)
    | Raised e => Raised e
    end
  else Ok None.

(** The operations that change a transcript. *)
Inductive ProjectOp : Type :=
| OpAddMessage (role content : string)
| OpClearMessages
| OpToggleResearchMode.

Definition project_step (p : ConversationProject) (op : ProjectOp)
  : ConversationProject :=
  match op with
  | OpAddMessage r c => add_message p r c
  | OpClearMessages => clear_messages p
  | OpToggleResearchMode => toggle_research_mode p
  end.

(** The states after each operation of a sequence, in order. *)
Fixpoint project_trace (p : ConversationProject) (ops : list ProjectOp)
  : list ConversationProject :=
  match ops with
  | [] => []
  | op :: ops' => project_step p op :: project_trace (project_step p op) ops'
  end.

Definition count_invariant (p : ConversationProject) : Prop :=
  message_count p = len (messages p).

(** *** class ProjectManager *)

Record ProjectManager : Type := mkManager {
  projects : dict ConversationProject;
  current_project_name : option string
}.

Definition ProjectManager_init : ProjectManager :=
  {| projects := []; current_project_name := None |}.

(** [now] is the clock reading used if a project is constructed. *)
Definition create_project (self : ProjectManager) (project_name now : string)
  : bool * ProjectManager :=
  if dict_mem project_name (projects self) then (false, self)
  else
    let new_project := ConversationProject_init project_name now in
    let projects' := dict_set project_name new_project (projects self) in
    let current' :=
      match current_project_name self with
      | None => Some project_name
      | Some c => Some c
      end in
    (true, {| projects := projects'; current_project_name := current' |}).

Definition option_string_eqb (a : option string) (b : string) : bool :=
  match a with
  | Some s => String.eqb s b
  | None => false
  end.

Definition delete_project (self : ProjectManager) (project_name : string)
  : bool * ProjectManager :=
  if negb (dict_mem project_name (projects self)) then (false, self)
  else
    let projects' := dict_del project_name (projects self) in
    let current' :=
      if option_string_eqb (current_project_name self) project_name then
        let remaining_projects := dict_keys projects' in
        if len remaining_projects >? 0 then
          match py_index remaining_projects 0 with
          | Ok first => Some first
          | Raised _ => None
          end
        else None
      else current_project_name self in
    (true, {| projects := projects'; current_project_name := current' |}).

Definition switch_to_project (self : ProjectManager) (project_name : string)
  : bool * ProjectManager :=
  if negb (dict_mem project_name (projects self)) then (false, self)
  else (true, {| projects := projects self;
                 current_project_name := Some project_name |}).

Definition get_current_project (self : ProjectManager)
  : option ConversationProject :=
  match current_project_name self with
  | None => None
  | Some c =>
      if negb (dict_mem c (projects self)) then None
      else dict_get c (projects self)
  end.

Definition get_all_project_names (self : ProjectManager) : list string :=
  dict_keys (projects self).

Definition get_all_projects_summary (self : ProjectManager) : list Summary :=
  map (fun kv => get_summary (snd kv)) (projects self).

Definition project_exists (self : ProjectManager) (project_name : string)
  : bool :=
  dict_mem project_name (projects self).

Definition get_project_count (self : ProjectManager) : Z :=
  dict_len (projects self).

(** The calls that change the store. *)
Inductive ManagerOp : Type :=
| OpCreate (project_name now : string)
| OpDelete (project_name : string)
| OpSwitch (project_name : string).

Definition manager_step (m : ProjectManager) (op : ManagerOp)
  : bool * ProjectManager :=
  match op with
  | OpCreate n now => create_project m n now
  | OpDelete n => delete_project m n
  | OpSwitch n => switch_to_project m n
  end.

(** The stores after each call of a sequence, in order. *)
Fixpoint manager_trace (m : ProjectManager) (ops : list ManagerOp)
  : list ProjectManager :=
  match ops with
  | [] => []
  | op :: ops' =>
      let m' := snd (manager_step m op) in m' :: manager_trace m' ops'
  end.

(** The active selector is [None] only over an empty mapping, and otherwise
    names a key of the mapping. *)
Definition selector_invariant (m : ProjectManager) : Prop :=
  match current_project_name m with
  | None => projects m = []
  | Some c => In c (dict_keys (projects m))
  end.

(* ================================================================= *)
(** ** app.py: the dispatch layer *)

Definition nl : string := String (ascii_of_nat 10) EmptyString.

(** [needle in hay] on strings *)
Fixpoint str_in (needle hay : string) : bool :=
  if String.prefix needle hay then true
  else match hay with
       | EmptyString => false
       | String _ hay' => str_in needle hay'
       end.

(** [str(n)] for an [int] *)
Definition str_of_int (n : Z) : string := NilZero.string_of_int (Z.to_int n).

(** The truth value of [user_input] in [if user_input:]: [None] and the
    empty string are false. *)
Definition truthy (o : option string) : bool :=
  match o with
  | Some s => negb (String.eqb s "")
  | None => false
  end.

Definition DEFAULT_API_PROVIDER : string := "openai".
Definition MAX_CONTEXT_MESSAGES : Z := 10.
Definition API_TIMEOUT : Z := 30.

(** What the dispatch layer reads from Streamlit and from the knowledge
    base: [st.secrets[k]] ([None] when the lookup raises), the three
    selections kept in [st.session_state], and the text returned by
    [get_all_examples_as_context()]. *)
Record Env : Type := mkEnv {
  secrets : string -> option string;
  selected_api_provider : string;
  selected_openai_model : string;
  selected_hf_model : string;
  get_all_examples_as_context : string
}.

(** The normalized result [{"success": ..., "response": ...}]. *)
Record Result : Type := mkResult {
  success : bool;
  response : string
}.

(** The keyword arguments of [client.chat.completions.create], together
    with the key the client was built with. *)
Record ChatRequest : Type := mkChatRequest {
  chat_api_key : string;
  chat_model : string;
  chat_messages : list Message;
  chat_temperature : Q;
  chat_max_tokens : Z;
  chat_timeout : Z
}.

(** The arguments of [requests.post]: URL, headers, the JSON payload
    ([inputs] and [parameters]) and the timeout. *)
Record HFRequest : Type := mkHFRequest {
  hf_api_url : string;
  hf_headers : list (string * string);
  hf_inputs : string;
  hf_max_length : Z;
  hf_temperature : Q;
  hf_return_full_text : bool;
  hf_timeout : Z
}.

(** A chat completion as the adapter reads it:
    [response.choices[0].message.content] as a [str], or the exception
    raised on the way to it. *)
Record ChatResponse : Type := mkChatResponse {
  chat_first_content : PyResult string
}.

(** An HTTP response as the adapter reads it: the status code, and
    [response.json()[0]["generated_text"]] as a [str], or the exception
    raised on the way to it. *)
Record HttpResponse : Type := mkHttpResponse {
  status_code : Z;
  generated_text : PyResult string
}.

(** Programs that may call a provider.  Building the OpenAI client and
    calling [create] on it is one event; the outcome handed to the
    continuation is what the call returns or the exception it raises. *)
Inductive Prog (A : Type) : Type :=
| Ret (a : A)
| Throw (e : Exn)
| ChatCreate (req : ChatRequest) (k : PyResult ChatResponse -> Prog A)
| HttpPost (req : HFRequest) (k : PyResult HttpResponse -> Prog A).
Arguments Ret {A} a.
Arguments Throw {A} e.
Arguments ChatCreate {A} req k.
Arguments HttpPost {A} req k.

Fixpoint bind {A B : Type} (p : Prog A) (f : A -> Prog B) : Prog B :=
  match p with
  | Ret a => f a
  | Throw e => Throw e
  | ChatCreate req k => ChatCreate req (fun r => bind (k r) f)
  | HttpPost req k => HttpPost req (fun r => bind (k r) f)
  end.

Notation "x <- p ;; q" := (bind p (fun x => q))
  (at level 61, p at next level, right associativity).

(** [try: body  except Exception as error: handler(error)] *)
Fixpoint try_except {A : Type} (body : Prog A) (handler : Exn -> Prog A)
  : Prog A :=
  match body with
  | Ret a => Ret a
  | Throw e => handler e
  | ChatCreate req k => ChatCreate req (fun r => try_except (k r) handler)
  | HttpPost req k => HttpPost req (fun r => try_except (k r) handler)
  end.

Definition lift {A : Type} (r : PyResult A) : Prog A :=
  match r with
  | Ok a => Ret a
  | Raised e => Throw e
  end.

Definition chat_completions_create (req : ChatRequest) : Prog ChatResponse :=
  ChatCreate req lift.

Definition requests_post (req : HFRequest) : Prog HttpResponse :=
  HttpPost req lift.

(** Running a program against a provider. *)
Record Provider : Type := mkProvider {
  on_chat : ChatRequest -> PyResult ChatResponse;
  on_post : HFRequest -> PyResult HttpResponse
}.

Inductive NetRequest : Type :=
| ReqChat (req : ChatRequest)
| ReqPost (req : HFRequest).

(** The requests sent, in order, and the outcome. *)
Fixpoint run {A : Type} (net : Provider) (p : Prog A)
  : list NetRequest * PyResult A :=
  match p with
  | Ret a => ([], Ok a)
  | Throw e => ([], Raised e)
  | ChatCreate req k =>
      let '(sent, out) := run net (k (on_chat net req)) in
      (ReqChat req :: sent, out)
  | HttpPost req k =>
      let '(sent, out) := run net (k (on_post net req)) in
      (ReqPost req :: sent, out)
  end.

(** The first request a program sends, if it sends any before returning. *)
Definition first_request {A : Type} (p : Prog A) : option NetRequest :=
  match p with
  | Ret _ | Throw _ => None
  | ChatCreate req _ => Some (ReqChat req)
  | HttpPost req _ => Some (ReqPost req)
  end.

(** The three classes of failure the specification names. *)
Inductive FailureClass : Type :=
| AuthenticationFailure
| QuotaFailure
| GenericFailure.

Section app_py.
(** [str.lower] and [str.strip] of Python, which work on Unicode text: the
    adapters are defined for any such pair of functions. *)
Variables str_lower str_strip : string -> string.
(** The two methodology prompts.  They are fixed texts of [app.py]; the
    adapters only concatenate them, so they are left as parameters. *)
Variables DEEP_RESEARCH_INSTRUCTIONS NORMAL_MODE_INSTRUCTIONS : string.

Definition get_api_provider (env : Env) : string :=
  match secrets env "API_PROVIDER" with
  | Some provider => str_lower provider
  | None => DEFAULT_API_PROVIDER
  end.

Definition get_api_key (env : Env) (provider : option string)
  : option string :=
  let provider :=
    match provider with
    | None => get_api_provider env
    | Some p => p
    end in
  if String.eqb provider "openai" then secrets env "OPENAI_API_KEY"
  else secrets env "HF_API_KEY".

Definition methodology (use_deep_research : bool) : string :=
  if use_deep_research then DEEP_RESEARCH_INSTRUCTIONS
  else NORMAL_MODE_INSTRUCTIONS.

(** The handler of [except Exception as error] in
    [send_message_to_openai]. *)
Definition openai_on_error (error : Exn) : Result :=
  let error_message := exn_text error in
  if str_in "authentication" (str_lower error_message)
     || str_in "api key" (str_lower error_message) then
    {| success := false;
       response := "❌ Invalid OpenAI API key. Please check your OPENAI_API_KEY in secrets.toml" |}
  else if str_in "quota" (str_lower error_message)
          || str_in "billing" (str_lower error_message) then
    {| success := false;
       response := "❌ OpenAI API quota exceeded. Please check your billing at https://platform.openai.com/account/billing" |}
  else
    {| success := false;
       response := "❌ OpenAI API Error: " ++ error_message |}.

Definition send_message_to_openai (env : Env) (user_message : string)
    (conversation_history : list Message) (use_deep_research : bool)
  : Prog Result :=
  match get_api_key env (Some "openai") with
  | None =>
      Ret {| success := false;
             response := "❌ OpenAI API key not found. Please set OPENAI_API_KEY in .streamlit/secrets.toml" |}
  | Some api_key =>
      let model := selected_openai_model env in
      try_except
        (let obsidian_context := get_all_examples_as_context env in
         let methodology_instructions := methodology use_deep_research in
         let system_prompt :=
           methodology_instructions ++ nl ++ nl
           ++ "=== OBSIDIAN KNOWLEDGE BASE ===" ++ nl
           ++ obsidian_context ++ nl ++ nl
           ++ "Remember: Help users master Obsidian with clear explanations and practical examples." in
         let messages := [ {| role := "system"; content := system_prompt |} ] in
         let recent_messages :=
           py_slice_from conversation_history (- MAX_CONTEXT_MESSAGES) in
         let messages :=
           fold_left
             (fun messages message =>
                (messages ++ [ {| role := role message;
                                  content := content message |} ])%list)
             recent_messages messages in
         let messages :=
           (messages ++ [ {| role := "user"; content := user_message |} ])%list in
         let '(temperature, max_tokens) :=
           if use_deep_research then (0.5%Q, 2500) else (0.7%Q, 1000) in
         response <- chat_completions_create
                       {| chat_api_key := api_key;
                          chat_model := model;
                          chat_messages := messages;
                          chat_temperature := temperature;
                          chat_max_tokens := max_tokens;
                          chat_timeout := API_TIMEOUT |} ;;
         ai_response <- lift (chat_first_content response) ;;
         let ai_response := str_strip ai_response in
         Ret {| success := true; response := ai_response |})
        (fun error => Ret (openai_on_error error))
  end.

(** The two [except] clauses of [send_message_to_huggingface]:
    [requests.exceptions.Timeout] first, then [Exception]. *)
Definition huggingface_on_error (error : Exn) : Result :=
  if exn_is_timeout error then
    {| success := false;
       response := "❌ Request timed out after " ++ str_of_int API_TIMEOUT
                   ++ " seconds. The AI service might be overloaded. Please try again." |}
  else
    let error_message := exn_text error in
    {| success := false;
       response := "❌ Unexpected error: " ++ error_message |}.

Definition send_message_to_huggingface (env : Env) (user_message : string)
    (conversation_history : list Message) (use_deep_research : bool)
  : Prog Result :=
  match get_api_key env (Some "huggingface") with
  | None =>
      Ret {| success := false;
             response := "❌ Hugging Face API key not found. Please set HF_API_KEY in .streamlit/secrets.toml" |}
  | Some api_key =>
      let selected_model := selected_hf_model env in
      let api_url :=
        "https://api-inference.huggingface.co/models/" ++ selected_model in
      let headers :=
        [ ("Authorization", "Bearer " ++ api_key);
          ("Content-Type", "application/json") ] in
      let obsidian_context := get_all_examples_as_context env in
      let methodology_instructions := methodology use_deep_research in
      let full_prompt :=
        methodology_instructions ++ nl ++ nl
        ++ "=== OBSIDIAN KNOWLEDGE BASE ===" ++ nl
        ++ obsidian_context ++ nl ++ nl
        ++ "=== CONVERSATION ===" ++ nl ++ nl in
      let recent_messages :=
        py_slice_from conversation_history (- MAX_CONTEXT_MESSAGES) in
      let full_prompt :=
        fold_left
          (fun full_prompt message =>
             let role := role message in
             let content := content message in
             if String.eqb role "user" then
               full_prompt ++ "User: " ++ content ++ nl
             else
               full_prompt ++ "Assistant: " ++ content ++ nl)
          recent_messages full_prompt in
      let full_prompt := full_prompt ++ "User: " ++ user_message ++ nl in
      let full_prompt := full_prompt ++ "Assistant: " in
      let '(max_length, temperature) :=
        if use_deep_research then (1500, 0.5%Q) else (500, 0.7%Q) in
      try_except
        (response <- requests_post
                       {| hf_api_url := api_url;
                          hf_headers := headers;
                          hf_inputs := full_prompt;
                          hf_max_length := max_length;
                          hf_temperature := temperature;
                          hf_return_full_text := false;
                          hf_timeout := API_TIMEOUT |} ;;
         if status_code response =? 200 then
           ai_response <- lift (generated_text response) ;;
           let ai_response := str_strip ai_response in
           Ret {| success := true; response := ai_response |}
         else
           Ret {| success := false;
                  response := "❌ API Error: Status code "
                              ++ str_of_int (status_code response)
                              ++ ". The AI service might be busy. Try again in a moment." |})
        (fun error => Ret (huggingface_on_error error))
  end.

Definition send_message_to_ai (env : Env) (user_message : string)
    (conversation_history : list Message) (use_deep_research : bool)
  : Prog Result :=
  let provider := selected_api_provider env in
  if String.eqb provider "openai" then
    send_message_to_openai env user_message conversation_history
      use_deep_research
  else
    send_message_to_huggingface env user_message conversation_history
      use_deep_research.

(** The part of [render_chat_interface] that changes state: [user_input]
    is what [st.chat_input] returned.  The project fetched from the
    manager is the object stored in it, so its changes are changes of the
    store. *)
Definition render_chat_interface (env : Env) (manager : ProjectManager)
    (user_input : option string) : Prog ProjectManager :=
  match get_current_project manager, current_project_name manager with
  | Some current_project, Some key =>
      if truthy user_input then
        let user_input := match user_input with Some s => s | None => "" end in
        let current_project := add_message current_project "user" user_input in
        let conversation_history := get_messages current_project in
        result <- send_message_to_ai env user_input conversation_history
                    (deep_research_mode current_project) ;;
        let current_project :=
          add_message current_project "assistant" (response result) in
        Ret {| projects := dict_set key current_project (projects manager);
               current_project_name := current_project_name manager |}
      else Ret manager
  | _, _ => Ret manager
  end.

(** The texts both theorems and adapters speak about, in closed form: the
    system prompt of the chat adapter, the opening of the completion
    adapter's prompt, and the line it writes for one message. *)
Definition openai_system_prompt (env : Env) (use_deep_research : bool)
  : string :=
  methodology use_deep_research ++ nl ++ nl
  ++ "=== OBSIDIAN KNOWLEDGE BASE ===" ++ nl
  ++ get_all_examples_as_context env ++ nl ++ nl
  ++ "Remember: Help users master Obsidian with clear explanations and practical examples.".

Definition huggingface_preamble (env : Env) (use_deep_research : bool)
  : string :=
  methodology use_deep_research ++ nl ++ nl
  ++ "=== OBSIDIAN KNOWLEDGE BASE ===" ++ nl
  ++ get_all_examples_as_context env ++ nl ++ nl
  ++ "=== CONVERSATION ===" ++ nl ++ nl.

Definition huggingface_line (message : Message) : string :=
  if String.eqb (role message) "user" then
    "User: " ++ content message ++ nl
  else
    "Assistant: " ++ content message ++ nl.

Definition huggingface_lines (history : list Message) : string :=
  fold_right (fun message rest => huggingface_line message ++ rest) ""
    history.

(** The credential of the adapter [send_message_to_ai] selects. *)
Definition selected_credential (env : Env) : option string :=
  if String.eqb (selected_api_provider env) "openai" then
    get_api_key env (Some "openai")
  else
    get_api_key env (Some "huggingface").

(** The class of a failure, by the tests [send_message_to_openai] applies
    to the error text. *)
Definition classify_error (error : Exn) : FailureClass :=
  let error_message := exn_text error in
  if str_in "authentication" (str_lower error_message)
     || str_in "api key" (str_lower error_message) then AuthenticationFailure
  else if str_in "quota" (str_lower error_message)
          || str_in "billing" (str_lower error_message) then QuotaFailure
  else GenericFailure.

(** The specification's reading of failure reporting: one message per
    class, the generic one carrying the error text. *)
Definition reports_by_class (on_error : Exn -> Result) : Prop :=
  exists (auth_message quota_message : string)
         (generic_message : string -> string),
    forall error,
      on_error error =
      {| success := false;
         response := match classify_error error with
                     | AuthenticationFailure => auth_message
                     | QuotaFailure => quota_message
                     | GenericFailure => generic_message (exn_text error)
                     end |}.
End app_py.

(** Stand-ins for [str.lower] and [str.strip] on ASCII text, to run the
    model on concrete inputs. *)
Definition ascii_lower_char (c : ascii) : ascii :=
  let n := nat_of_ascii c in
  if ((65 <=? n) && (n <=? 90))%nat then ascii_of_nat (n + 32) else c.

Fixpoint ascii_lower (s : string) : string :=
  match s with
  | EmptyString => EmptyString
  | String c s' => String (ascii_lower_char c) (ascii_lower s')
  end.

Definition is_space (c : ascii) : bool :=
  let n := nat_of_ascii c in
  ((n =? 32) || ((9 <=? n) && (n <=? 13)))%nat.

Fixpoint lstrip (s : string) : string :=
  match s with
  | EmptyString => EmptyString
  | String c s' => if is_space c then lstrip s' else s
  end.

Fixpoint rstrip (s : string) : string :=
  match s with
  | EmptyString => EmptyString
  | String c s' =>
      match rstrip s' with
      | EmptyString => if is_space c then EmptyString else String c EmptyString
      | r => String c r
      end
  end.

Definition ascii_strip (s : string) : string := rstrip (lstrip s).

(* ----------------------------------------------------------------- *)
(** *** Concrete inputs *)

Definition example_secrets (k : string) : option string :=
  if String.eqb k "OPENAI_API_KEY" then Some "sk-test"
  else if String.eqb k "HF_API_KEY" then Some "hf-test"
  else None.

Definition example_env_openai : Env :=
  {| secrets := example_secrets;
     selected_api_provider := "openai";
     selected_openai_model := "gpt-3.5-turbo";
     selected_hf_model := "microsoft/DialoGPT-medium";
     get_all_examples_as_context := "KB" |}.

Definition example_env_huggingface : Env :=
  {| secrets := example_secrets;
     selected_api_provider := "huggingface";
     selected_openai_model := "gpt-3.5-turbo";
     selected_hf_model := "microsoft/DialoGPT-medium";
     get_all_examples_as_context := "KB" |}.

Definition example_env_no_key : Env :=
  {| secrets := fun _ => None;
     selected_api_provider := "openai";
     selected_openai_model := "gpt-3.5-turbo";
     selected_hf_model := "microsoft/DialoGPT-medium";
     get_all_examples_as_context := "KB" |}.

(** A provider whose every call raises an exception with the given text. *)
Definition raising_provider (text : string) : Provider :=
  {| on_chat := fun _ => Raised {| exn_is_timeout := false; exn_text := text |};
     on_post := fun _ => Raised {| exn_is_timeout := false; exn_text := text |} |}.

(** A provider that answers every POST with the given HTTP status. *)
Definition status_provider (code : Z) : Provider :=
  {| on_chat := fun _ => Ok {| chat_first_content := Ok "" |};
     on_post := fun _ => Ok {| status_code := code;
                               generated_text := Raised IndexError |} |}.

Definition example_history_15 : list Message :=
  map (fun c => {| role := "user"; content := c |})
    ["1"; "2"; "3"; "4"; "5"; "6"; "7"; "8"; "9"; "10";
     "11"; "12"; "13"; "14"; "15"].

Definition example_project : ConversationProject :=
  add_message
    (add_message (ConversationProject_init "A" "2025-10-29 14:30:45")
       "user" "How do I link notes?")
    "assistant" "Use [[note name]]".

Definition example_chat_manager : ProjectManager :=
  {| projects := [("A", example_project)];
     current_project_name := Some "A" |}.

Definition example_manager : ProjectManager :=
  snd (create_project
         (snd (create_project ProjectManager_init "A" "2025-10-29 14:30:45"))
         "B" "2025-10-29 14:31:00").

(* ================================================================= *)
(** ** obsidian_knowledge.py *)

Module obsidian_knowledge.

(** An entry of [DATAVIEW_EXAMPLES], [TEMPLATER_EXAMPLES] or
    [GENERAL_OBSIDIAN_TIPS]. *)
Record Example : Type := mkExample {
  question : string;
  answer : string
}.

(** An entry of [COMMON_PROBLEMS]. *)
Record Problem : Type := mkProblem {
  problem : string;
  solution : string
}.

(** A search result [{"type": ..., "question": ..., "answer": ...}]. *)
Record SearchResult : Type := mkSearchResult {
  result_type : string;
  result_question : string;
  result_answer : string
}.

Section tables.
(** [str.lower] of Python. *)
Variable str_lower : string -> string.
(** The knowledge base: one text and four dict literals of the module.  The
    functions only look entries up and walk the tables in order, so the
    tables are left as parameters. *)
Variable SYSTEM_CONTEXT : string.
Variables DATAVIEW_EXAMPLES TEMPLATER_EXAMPLES GENERAL_OBSIDIAN_TIPS
  : dict Example.
Variable COMMON_PROBLEMS : dict Problem.

Definition get_dataview_example (topic : string) : option Example :=
  if dict_mem topic DATAVIEW_EXAMPLES then dict_get topic DATAVIEW_EXAMPLES
  else None.

Definition get_templater_example (topic : string) : option Example :=
  if dict_mem topic TEMPLATER_EXAMPLES then dict_get topic TEMPLATER_EXAMPLES
  else None.

Definition get_general_tip (topic : string) : option Example :=
  if dict_mem topic GENERAL_OBSIDIAN_TIPS then
    dict_get topic GENERAL_OBSIDIAN_TIPS
  else None.

(** The body of the three loops over question-and-answer tables. *)
Definition add_example (context : string) (item : string * Example)
  : string :=
  let example_data := snd item in
  let context := context ++ nl ++ question example_data ++ nl in
  context ++ answer example_data ++ nl.

(** The body of the loop over [COMMON_PROBLEMS]. *)
Definition add_problem (context : string) (item : string * Problem)
  : string :=
  let problem_data := snd item in
  let context := context ++ nl ++ "Problem: " ++ problem problem_data ++ nl in
  context ++ "Solution: " ++ solution problem_data ++ nl.

Definition get_all_examples_as_context : string :=
  let context := "" in
  let context := context ++ "=== YOUR ROLE ===" ++ nl in
  let context := context ++ SYSTEM_CONTEXT ++ nl ++ nl in
  let context := context ++ "=== DATAVIEW EXAMPLES ===" ++ nl in
  let context := fold_left add_example DATAVIEW_EXAMPLES context in
  let context := context ++ nl ++ "=== TEMPLATER EXAMPLES ===" ++ nl in
  let context := fold_left add_example TEMPLATER_EXAMPLES context in
  let context := context ++ nl ++ "=== GENERAL OBSIDIAN TIPS ===" ++ nl in
  let context := fold_left add_example GENERAL_OBSIDIAN_TIPS context in
  let context :=
    context ++ nl ++ "=== COMMON PROBLEMS & SOLUTIONS ===" ++ nl in
  let context := fold_left add_problem COMMON_PROBLEMS context in
  context.

(** The test of the three search loops. *)
Definition matches (search_term_lower : string) (example_data : Example)
  : bool :=
  let question_lower := str_lower (question example_data) in
  let answer_lower := str_lower (answer example_data) in
  str_in search_term_lower question_lower
  || str_in search_term_lower answer_lower.

(** One search loop: the matching entries of a table, labelled. *)
Definition search_table (label search_term_lower : string)
    (table : dict Example) (matching_examples : list SearchResult)
  : list SearchResult :=
  fold_left
    (fun matching_examples item =>
       let example_data := snd item in
       if matches search_term_lower example_data then
         (matching_examples
          ++ [ {| result_type := label;
                  result_question := question example_data;
                  result_answer := answer example_data |} ])%list
       else matching_examples)
    table matching_examples.

Definition search_knowledge_base (search_term : string)
  : list SearchResult :=
  let search_term_lower := str_lower search_term in
  let matching_examples := [] in
  let matching_examples :=
    search_table "DataView" search_term_lower DATAVIEW_EXAMPLES
      matching_examples in
  let matching_examples :=
    search_table "Templater" search_term_lower TEMPLATER_EXAMPLES
      matching_examples in
  let matching_examples :=
    search_table "General Tip" search_term_lower GENERAL_OBSIDIAN_TIPS
      matching_examples in
  matching_examples.

(** The results one table gives, in closed form. *)
Definition labelled_matches (label search_term_lower : string)
    (table : dict Example) : list SearchResult :=
  map (fun example_data =>
         {| result_type := label;
            result_question := question example_data;
            result_answer := answer example_data |})
    (filter (matches search_term_lower) (map snd table)).
End tables.

(** A small knowledge base to run the functions on. *)
Definition example_dataview : dict Example :=
  [ ("basic_table",
     {| question := "How do I create a basic DataView table?";
        answer := "Use the TABLE command." |});
    ("list_query",
     {| question := "How do I create a list in DataView?";
        answer := "Use the LIST command." |}) ].

Definition example_templater : dict Example :=
  [ ("daily_note",
     {| question := "How do I create a daily note template?";
        answer := "Use tp.date.now in a table of fields." |}) ].

Definition example_tips : dict Example :=
  [ ("linking",
     {| question := "How do I link notes together?";
        answer := "Use [[note name]]." |}) ].

Definition example_problems : dict Problem :=
  [ ("sync_issues",
     {| problem := "Notes not syncing between devices";
        solution := "Check the table of sync conflicts." |}) ].

End obsidian_knowledge.

(* ================================================================= *)
(** ** app.py: session state, sidebar and main *)

(** [st.session_state], as far as the code uses it: a key that was never
    set is [None]. *)
Record SessionState : Type := mkSessionState {
  ss_project_manager : option ProjectManager;
  ss_setup_complete : option bool;
  ss_selected_api_provider : option string;
  ss_selected_openai_model : option string;
  ss_selected_hf_model : option string
}.

(** The session state of a new browser session. *)
Definition empty_session : SessionState :=
  {| ss_project_manager := None;
     ss_setup_complete := None;
     ss_selected_api_provider := None;
     ss_selected_openai_model := None;
     ss_selected_hf_model := None |}.

(** The state the page functions work on once every key is set. *)
Record App : Type := mkApp {
  app_manager : ProjectManager;
  app_env : Env
}.

(** How a page function ends: it runs to its end, or it calls [st.rerun()],
    which stops the script there. *)
Inductive Flow (A : Type) : Type :=
| Continue (a : A)
| Rerun (a : A).
Arguments Continue {A} a.
Arguments Rerun {A} a.

Definition flow_state {A : Type} (f : Flow A) : A :=
  match f with
  | Continue a => a
  | Rerun a => a
  end.

(** The entry a [st.selectbox] with two or three options returns. *)
Inductive Choice2 : Type := Choice2_0 | Choice2_1.
Inductive Choice3 : Type := Choice3_0 | Choice3_1 | Choice3_2.

Definition choice2_index (c : Choice2) : nat :=
  match c with Choice2_0 => 0 | Choice2_1 => 1 end.

Definition choice3_index (c : Choice3) : nat :=
  match c with Choice3_0 => 0 | Choice3_1 => 1 | Choice3_2 => 2 end.

(** [st.selectbox(label, options=options, ...)] when the user's choice is
    entry [i]. *)
Definition selectbox (options : list string) (i : nat) : string :=
  nth i options "".

(** What the widgets of one script run return, and the two clock readings
    the run may take. *)
Record UIInput : Type := mkUIInput {
  ui_provider : Choice2;
  ui_model : Choice3;
  ui_new_project_name : string;
  ui_create_clicked : bool;
  ui_project_clicked : string -> bool;
  ui_research_toggle : bool;
  ui_clear_clicked : bool;
  ui_delete_clicked : bool;
  ui_chat_input : option string;
  ui_now_default_project : string;
  ui_now_new_project : string
}.

(** An attribute of [st.session_state] that was never set.  Nothing reads
    the text of this exception. *)
Definition AttributeError (attribute : string) : Exn :=
  {| exn_is_timeout := false;
     exn_text := "st.session_state has no attribute " ++ attribute |}.

Definition KeyError (key : string) : Exn :=
  {| exn_is_timeout := false; exn_text := "'" ++ key ++ "'" |}.

(** [d[k]], which raises when the key is missing. *)
Definition dict_lookup {V : Type} (k : string) (d : dict V) : PyResult V :=
  match dict_get k d with
  | Some v => Ok v
  | None => Raised (KeyError k)
  end.

Definition provider_options : list string := ["OpenAI"; "Hugging Face"].

Definition openai_models : dict string :=
  [ ("GPT-3.5 Turbo (Fast & Affordable)", "gpt-3.5-turbo");
    ("GPT-4o Mini (Better Quality)", "gpt-4o-mini");
    ("GPT-4 (Most Powerful)", "gpt-4") ].

Definition hf_models : dict string :=
  [ ("DialoGPT Medium (Conversational)", "microsoft/DialoGPT-medium");
    ("GPT-2 (Classic)", "gpt2");
    ("Llama 2 Chat (Advanced)", "meta-llama/Llama-2-7b-chat-hf") ].

(** Assignments to the three selections of [st.session_state]. *)
Definition set_selected_api_provider (env : Env) (v : string) : Env :=
  {| secrets := secrets env;
     selected_api_provider := v;
     selected_openai_model := selected_openai_model env;
     selected_hf_model := selected_hf_model env;
     get_all_examples_as_context := get_all_examples_as_context env |}.

Definition set_selected_openai_model (env : Env) (v : string) : Env :=
  {| secrets := secrets env;
     selected_api_provider := selected_api_provider env;
     selected_openai_model := v;
     selected_hf_model := selected_hf_model env;
     get_all_examples_as_context := get_all_examples_as_context env |}.

Definition set_selected_hf_model (env : Env) (v : string) : Env :=
  {| secrets := secrets env;
     selected_api_provider := selected_api_provider env;
     selected_openai_model := selected_openai_model env;
     selected_hf_model := v;
     get_all_examples_as_context := get_all_examples_as_context env |}.

(** A change made through the object [get_current_project] returned is a
    change of the object stored under [current_project_name]. *)
Definition store_current_project (manager : ProjectManager)
    (current_project : ConversationProject) : ProjectManager :=
  match current_project_name manager with
  | Some key =>
      {| projects := dict_set key current_project (projects manager);
         current_project_name := current_project_name manager |}
  | None => manager
  end.

Section app_ui.
Variables str_lower str_strip : string -> string.
Variables DEEP_RESEARCH_INSTRUCTIONS NORMAL_MODE_INSTRUCTIONS : string.
(** [st.secrets[k]] and the text of the knowledge base. *)
Variable the_secrets : string -> option string.
Variable the_knowledge : string.

(** [now] is the clock reading used if the default project is
    constructed. *)
Definition initialize_session_state (now : string) (ss : SessionState)
  : SessionState :=
  let project_manager :=
    match ss_project_manager ss with
    | None =>
        let manager := ProjectManager_init in
        Some (snd (create_project manager "General Questions" now))
    | Some manager => Some manager
    end in
  let setup_complete :=
    match ss_setup_complete ss with
    | None => Some true
    | Some flag => Some flag
    end in
  let selected_api_provider :=
    match ss_selected_api_provider ss with
    | None =>
        match the_secrets "API_PROVIDER" with
        | Some provider => Some (str_lower provider)
        | None => Some "openai"
        end
    | Some provider => Some provider
    end in
  let selected_openai_model :=
    match ss_selected_openai_model ss with
    | None => Some "gpt-3.5-turbo"
    | Some model => Some model
    end in
  let selected_hf_model :=
    match ss_selected_hf_model ss with
    | None => Some "microsoft/DialoGPT-medium"
    | Some model => Some model
    end in
  {| ss_project_manager := project_manager;
     ss_setup_complete := setup_complete;
     ss_selected_api_provider := selected_api_provider;
     ss_selected_openai_model := selected_openai_model;
     ss_selected_hf_model := selected_hf_model |}.

(** Reading the attributes the page functions use; a missing one raises. *)
Definition session_view (ss : SessionState) : PyResult App :=
  match ss_project_manager ss, ss_selected_api_provider ss,
        ss_selected_openai_model ss, ss_selected_hf_model ss with
  | Some manager, Some provider, Some openai_model, Some hf_model =>
      Ok {| app_manager := manager;
            app_env := {| secrets := the_secrets;
                          selected_api_provider := provider;
                          selected_openai_model := openai_model;
                          selected_hf_model := hf_model;
                          get_all_examples_as_context := the_knowledge |} |}
  | None, _, _, _ => Raised (AttributeError "project_manager")
  | _, None, _, _ => Raised (AttributeError "selected_api_provider")
  | _, _, None, _ => Raised (AttributeError "selected_openai_model")
  | _, _, _, None => Raised (AttributeError "selected_hf_model")
  end.

(** The session state after the page functions worked on [app]. *)
Definition session_store (app : App) (ss : SessionState) : SessionState :=
  {| ss_project_manager := Some (app_manager app);
     ss_setup_complete := ss_setup_complete ss;
     ss_selected_api_provider := Some (selected_api_provider (app_env app));
     ss_selected_openai_model := Some (selected_openai_model (app_env app));
     ss_selected_hf_model := Some (selected_hf_model (app_env app)) |}.

(** The model auto-selected when the research toggle changes. *)
Definition auto_select_model (env : Env) (research_mode : bool) : Env :=
  if research_mode then
    if String.eqb (selected_api_provider env) "openai" then
      set_selected_openai_model env "gpt-4"
    else
      set_selected_hf_model env "meta-llama/Llama-2-7b-chat-hf"
  else
    if String.eqb (selected_api_provider env) "openai" then
      set_selected_openai_model env "gpt-3.5-turbo"
    else
      set_selected_hf_model env "microsoft/DialoGPT-medium".

(** The first part of [render_sidebar]: the provider and model selectors. *)
Definition sidebar_configuration (ui : UIInput) (env : Env) : PyResult Env :=
  let selected_provider :=
    selectbox provider_options (choice2_index (ui_provider ui)) in
  let env :=
    if String.eqb selected_provider "OpenAI" then
      set_selected_api_provider env "openai"
    else
      set_selected_api_provider env "huggingface" in
  if String.eqb (selected_api_provider env) "openai" then
    let openai_model_names := dict_keys openai_models in
    let selected_model_name :=
      selectbox openai_model_names (choice3_index (ui_model ui)) in
    match dict_lookup selected_model_name openai_models with
    | Ok model => Ok (set_selected_openai_model env model)
    | Raised e => Raised e
    end
  else
    let hf_model_names := dict_keys hf_models in
    let selected_model_name :=
      selectbox hf_model_names (choice3_index (ui_model ui)) in
    match dict_lookup selected_model_name hf_models with
    | Ok model => Ok (set_selected_hf_model env model)
    | Raised e => Raised e
    end.

(** The project actions of [render_sidebar], reached when neither the
    create button nor a project button ended the run. *)
Definition sidebar_project_actions (ui : UIInput) (manager : ProjectManager)
    (env : Env) (all_project_names : list string) : Flow App :=
  match get_current_project manager with
  | Some current_project =>
      let research_mode := ui_research_toggle ui in
      if negb (Bool.eqb research_mode (deep_research_mode current_project))
      then
        let manager :=
          store_current_project manager
            (toggle_research_mode current_project) in
        Rerun {| app_manager := manager;
                 app_env := auto_select_model env research_mode |}
      else if ui_clear_clicked ui then
        let manager :=
          store_current_project manager (clear_messages current_project) in
        Rerun {| app_manager := manager; app_env := env |}
      else if len all_project_names >? 1 then
        if ui_delete_clicked ui then
          let manager :=
            snd (delete_project manager (name current_project)) in
          Rerun {| app_manager := manager; app_env := env |}
        else Continue {| app_manager := manager; app_env := env |}
      else Continue {| app_manager := manager; app_env := env |}
  | None => Continue {| app_manager := manager; app_env := env |}
  end.

(** The project part of [render_sidebar]: create form, project buttons,
    project actions. *)
Definition sidebar_projects (ui : UIInput) (manager : ProjectManager)
    (env : Env) : Flow App :=
  let new_project_name := ui_new_project_name ui in
  let created :=
    if ui_create_clicked ui then
      if truthy (Some new_project_name)
         && negb (String.eqb (str_strip new_project_name) "") then
        Some (create_project manager (str_strip new_project_name)
                (ui_now_new_project ui))
      else None
    else None in
  match created with
  | Some (true, manager) => Rerun {| app_manager := manager; app_env := env |}
  | _ =>
      let all_project_names := get_all_project_names manager in
      let clicked :=
        if len all_project_names >? 0 then
          find (ui_project_clicked ui) all_project_names
        else None in
      match clicked with
      | Some project_name =>
          let manager := snd (switch_to_project manager project_name) in
          Rerun {| app_manager := manager; app_env := env |}
      | None => sidebar_project_actions ui manager env all_project_names
      end
  end.

Definition render_sidebar (ui : UIInput) (app : App) : PyResult (Flow App) :=
  let manager := app_manager app in
  match sidebar_configuration ui (app_env app) with
  | Raised e => Raised e
  | Ok env => Ok (sidebar_projects ui manager env)
  end.

(** One run of the script: [main()].  [setup_page] and
    [render_help_section] only draw. *)
Definition main (ui : UIInput) (ss : SessionState) : Prog SessionState :=
  let ss := initialize_session_state (ui_now_default_project ui) ss in
  match session_view ss with
  | Raised e => Throw e
  | Ok app =>
      match render_sidebar ui app with
      | Raised e => Throw e
      | Ok (Rerun app) => Ret (session_store app ss)
      | Ok (Continue app) =>
          manager <- render_chat_interface str_lower str_strip
                       DEEP_RESEARCH_INSTRUCTIONS NORMAL_MODE_INSTRUCTIONS
                       (app_env app) (app_manager app) (ui_chat_input ui) ;;
          Ret (session_store
                 {| app_manager := manager; app_env := app_env app |} ss)
      end
  end.

(** A browser session: the script runs once per interaction, each run with
    what its widgets return and what the provider answers.  A run that
    raises ends the session. *)
Fixpoint session_runs (ss : SessionState) (steps : list (UIInput * Provider))
  : list (list NetRequest * PyResult SessionState) :=
  match steps with
  | [] => []
  | (ui, net) :: steps' =>
      let r := run net (main ui ss) in
      r :: match snd r with
           | Ok ss' => session_runs ss' steps'
           | Raised _ => []
           end
  end.
End app_ui.

(** Every stored project is stored under its own name and counts its
    messages. *)
Definition entries_invariant (m : ProjectManager) : Prop :=
  Forall (fun kv => name (snd kv) = fst kv /\ count_invariant (snd kv))
    (projects m).

(** What holds of the store during a browser session. *)
Definition store_invariant (m : ProjectManager) : Prop :=
  selector_invariant m
  /\ dict_wf (projects m)
  /\ entries_invariant m.

Definition known_openai_model (model : string) : Prop :=
  In model (map snd openai_models).

Definition known_hf_model (model : string) : Prop :=
  In model (map snd hf_models).

(** What holds of the session state after every run: every key is set, the
    store is well formed and not empty, no project has the empty name, the
    provider is one of the two the dispatcher knows, and both model
    selections are identifiers the sidebar offers. *)
Definition session_invariant (ss : SessionState) : Prop :=
  exists manager provider openai_model hf_model,
    ss_project_manager ss = Some manager
    /\ ss_setup_complete ss <> None
    /\ ss_selected_api_provider ss = Some provider
    /\ ss_selected_openai_model ss = Some openai_model
    /\ ss_selected_hf_model ss = Some hf_model
    /\ store_invariant manager
    /\ projects manager <> []
    /\ Forall (fun project_name => project_name <> "")
         (get_all_project_names manager)
    /\ (provider = "openai" \/ provider = "huggingface")
    /\ known_openai_model openai_model
    /\ known_hf_model hf_model.

(** What holds of the state the page functions work on, before the sidebar
    has normalised the provider. *)
Definition app_invariant (app : App) : Prop :=
  store_invariant (app_manager app)
  /\ projects (app_manager app) <> []
  /\ Forall (fun project_name => project_name <> "")
       (get_all_project_names (app_manager app))
  /\ known_openai_model (selected_openai_model (app_env app))
  /\ known_hf_model (selected_hf_model (app_env app)).

Definition canonical_provider (env : Env) : Prop :=
  selected_api_provider env = "openai"
  \/ selected_api_provider env = "huggingface".

(** Widget values of a run in which the user touches nothing. *)
Definition idle_ui (toggle : bool) : UIInput :=
  {| ui_provider := Choice2_0;
     ui_model := Choice3_0;
     ui_new_project_name := "";
     ui_create_clicked := false;
     ui_project_clicked := fun _ => false;
     ui_research_toggle := toggle;
     ui_clear_clicked := false;
     ui_delete_clicked := false;
     ui_chat_input := None;
     ui_now_default_project := "2025-10-29 14:30:45";
     ui_now_new_project := "2025-10-29 14:31:00" |}.

(** The text a provider gives for a request, when it gives one: the call
    returns, the text can be read from the reply and, for the completion
    adapter, the status is 200. *)
Definition provider_text (net : Provider) (req : NetRequest)
  : option string :=
  match req with
  | ReqChat r =>
      match on_chat net r with
      | Ok reply =>
          match chat_first_content reply with
          | Ok text => Some text
          | Raised _ => None
          end
      | Raised _ => None
      end
  | ReqPost r =>
      match on_post net r with
      | Ok reply =>
          if status_code reply =? 200 then
            match generated_text reply with
            | Ok text => Some text
            | Raised _ => None
            end
          else None
      | Raised _ => None
      end
  end.

(** A provider that answers every request with the given text. *)
Definition answering_provider (text : string) : Provider :=
  {| on_chat := fun _ => Ok {| chat_first_content := Ok text |};
     on_post := fun _ => Ok {| status_code := 200;
                               generated_text := Ok text |} |}.


Definition example_app : App :=
  {| app_manager := example_manager; app_env := example_env_openai |}.

Definition example_ui_create : UIInput :=
  {| ui_provider := Choice2_0;
     ui_model := Choice3_1;
     ui_new_project_name := "  Notes ";
     ui_create_clicked := true;
     ui_project_clicked := fun _ => false;
     ui_research_toggle := false;
     ui_clear_clicked := false;
     ui_delete_clicked := false;
     ui_chat_input := None;
     ui_now_default_project := "2025-10-29 14:30:45";
     ui_now_new_project := "2025-10-29 14:35:00" |}.

Definition example_ui_delete : UIInput :=
  {| ui_provider := Choice2_0;
     ui_model := Choice3_0;
     ui_new_project_name := "";
     ui_create_clicked := false;
     ui_project_clicked := fun _ => false;
     ui_research_toggle := false;
     ui_clear_clicked := false;
     ui_delete_clicked := true;
     ui_chat_input := None;
     ui_now_default_project := "2025-10-29 14:30:45";
     ui_now_new_project := "2025-10-29 14:35:00" |}.

(* ================================================================= *)
(** ** Properties of project_manager.py *)

Section dict_facts.
Context {V : Type}.
Implicit Types (d : dict V) (k : string) (v : V).

Lemma dict_mem_true_iff k d :
  dict_mem k d = true <-> In k (dict_keys d).
Proof.
  unfold dict_mem, dict_keys. rewrite existsb_exists, in_map_iff.
  split; intros [[k' v'] [H1 H2]]; exists (k', v'); simpl in *.
  - apply String.eqb_eq in H2. auto.
  - subst. split; [assumption | apply String.eqb_refl].
Qed.

Lemma dict_mem_false_iff k d :
  dict_mem k d = false <-> ~ In k (dict_keys d).
Proof.
  rewrite <- dict_mem_true_iff. destruct (dict_mem k d); split; congruence.
Qed.

Lemma dict_keys_set_new k v d :
  dict_mem k d = false -> dict_keys (dict_set k v d) = (dict_keys d ++ [k])%list.
Proof.
  induction d as [| [k' v'] d IH]; simpl; intros H; [reflexivity |].
  apply orb_false_iff in H as [Hk Hd]. rewrite Hk. simpl.
  now rewrite IH.
Qed.

Lemma dict_keys_set_old k v d :
  dict_mem k d = true -> dict_keys (dict_set k v d) = dict_keys d.
Proof.
  induction d as [| [k' v'] d IH]; simpl; intros H; [discriminate |].
  destruct (String.eqb k' k) eqn:Hk; simpl; [reflexivity |].
  simpl in H. now rewrite IH.
Qed.

Lemma dict_keys_del k d :
  dict_keys (dict_del k d)
  = filter (fun k' => negb (String.eqb k' k)) (dict_keys d).
Proof.
  induction d as [| [k' v'] d IH]; simpl; [reflexivity |].
  destruct (String.eqb k' k); simpl; now rewrite IH.
Qed.

Lemma in_dict_keys_del c k d :
  In c (dict_keys (dict_del k d)) <-> In c (dict_keys d) /\ c <> k.
Proof.
  rewrite dict_keys_del, filter_In, negb_true_iff, String.eqb_neq.
  reflexivity.
Qed.

Lemma dict_mem_del_same k d : dict_mem k (dict_del k d) = false.
Proof.
  apply dict_mem_false_iff. rewrite in_dict_keys_del. tauto.
Qed.

Lemma dict_get_del_other k k' d :
  k' <> k -> dict_get k' (dict_del k d) = dict_get k' d.
Proof.
  intros Hne. induction d as [| [k0 v0] d IH]; simpl; [reflexivity |].
  destruct (String.eqb k0 k) eqn:Hk; simpl.
  - apply String.eqb_eq in Hk. subst k0.
    destruct (String.eqb k k') eqn:Hk'; [| exact IH].
    apply String.eqb_eq in Hk'. congruence.
  - now rewrite IH.
Qed.

Lemma dict_wf_set k v d : dict_wf d -> dict_wf (dict_set k v d).
Proof.
  unfold dict_wf. intros Hwf.
  destruct (dict_mem k d) eqn:Hm.
  - now rewrite dict_keys_set_old.
  - rewrite dict_keys_set_new by assumption.
    apply NoDup_app; [assumption | repeat constructor; simpl; tauto |].
    intros x Hx [-> | []]. apply dict_mem_false_iff in Hm. contradiction.
Qed.

Lemma dict_wf_del k d : dict_wf d -> dict_wf (dict_del k d).
Proof.
  unfold dict_wf. rewrite dict_keys_del. apply NoDup_filter.
Qed.
End dict_facts.

Section python_list_facts.
Context {A : Type}.
Implicit Types (l : list A).

Lemma len_nonneg l : 0 <= len l.
Proof. unfold len. lia. Qed.

Lemma len_app l1 l2 : len (l1 ++ l2) = len l1 + len l2.
Proof. unfold len. rewrite length_app. lia. Qed.

Lemma py_index_last l (x : A) : py_index (l ++ [x]) (-1) = Ok x.
Proof.
  unfold py_index. rewrite len_app. unfold len. simpl (List.length [x]).
  change (-1 <? 0) with true. cbv iota.
  replace (-1 + (Z.of_nat (List.length l) + Z.of_nat 1))
    with (Z.of_nat (List.length l)) by lia.
  destruct (Z.ltb_spec (Z.of_nat (List.length l)) 0) as [Hlt | _]; [lia |].
  rewrite Nat2Z.id, nth_error_app2, Nat.sub_diag by lia. reflexivity.
Qed.

(** [l[-n:]] keeps the last [n] elements, or all of [l] when it has
    fewer. *)
Lemma py_slice_from_neg l (n : Z) :
  0 < n ->
  py_slice_from l (- n) = skipn (List.length l - Z.to_nat n) l.
Proof.
  intros Hn. unfold py_slice_from, len.
  destruct (Z.ltb_spec (- n) 0) as [_ | Hge]; [| lia].
  f_equal. lia.
Qed.
End python_list_facts.

Section project_manager_properties.
Implicit Types (m : ProjectManager) (p : ConversationProject).

Lemma count_invariant_init n now :
  count_invariant (ConversationProject_init n now).
Proof. reflexivity. Qed.

Lemma count_invariant_step p op :
  count_invariant p -> count_invariant (project_step p op).
Proof.
  unfold count_invariant. intros H.
  destruct op as [r c | |]; simpl.
  - rewrite len_app, H. reflexivity.
  - reflexivity.
  - exact H.
Qed.

Lemma count_invariant_trace ops : forall p,
  count_invariant p -> Forall count_invariant (project_trace p ops).
Proof.
  induction ops as [| op ops IH]; intros p H; simpl; constructor.
  - now apply count_invariant_step.
  - apply IH. now apply count_invariant_step.
Qed.

Lemma selector_invariant_init : selector_invariant ProjectManager_init.
Proof. reflexivity. Qed.

Lemma selector_invariant_create m n now :
  selector_invariant m -> selector_invariant (snd (create_project m n now)).
Proof.
  unfold selector_invariant, create_project. intros H.
  destruct (dict_mem n (projects m)) eqn:Hm; simpl; [exact H |].
  rewrite dict_keys_set_new by assumption.
  destruct (current_project_name m) as [c |].
  - apply in_or_app. now left.
  - apply in_or_app. right. now left.
Qed.

Lemma selector_invariant_delete m n :
  selector_invariant m -> selector_invariant (snd (delete_project m n)).
Proof.
  unfold selector_invariant, delete_project. intros H.
  destruct (dict_mem n (projects m)) eqn:Hm; simpl; [| exact H].
  destruct (current_project_name m) as [c |]; simpl.
  - destruct (String.eqb c n) eqn:Hc.
    + destruct (dict_del n (projects m)) as [| [k v] d'] eqn:Hd;
        simpl; [reflexivity |].
      unfold len. simpl List.length.
      destruct (Z.gtb_spec (Z.of_nat (S (List.length (dict_keys d')))) 0);
        [| lia].
      simpl. now left.
    + apply in_dict_keys_del. apply String.eqb_neq in Hc. tauto.
  - rewrite H. reflexivity.
Qed.

Lemma selector_invariant_switch m n :
  selector_invariant m -> selector_invariant (snd (switch_to_project m n)).
Proof.
  unfold selector_invariant, switch_to_project. intros H.
  destruct (dict_mem n (projects m)) eqn:Hm; simpl; [| exact H].
  now apply dict_mem_true_iff.
Qed.

Lemma selector_invariant_step m op :
  selector_invariant m -> selector_invariant (snd (manager_step m op)).
Proof.
  destruct op; simpl;
    auto using selector_invariant_create, selector_invariant_delete,
               selector_invariant_switch.
Qed.

Lemma selector_invariant_trace ops : forall m,
  selector_invariant m -> Forall selector_invariant (manager_trace m ops).
Proof.
  induction ops as [| op ops IH]; intros m H; simpl; constructor.
  - now apply selector_invariant_step.
  - apply IH. now apply selector_invariant_step.
Qed.

(** The carrier stays a dict: no call introduces a duplicate key. *)
Lemma dict_wf_step m op :
  dict_wf (projects m) -> dict_wf (projects (snd (manager_step m op))).
Proof.
  intros H. destruct op as [n now | n | n]; simpl.
  - unfold create_project.
    destruct (dict_mem n (projects m)); simpl; [exact H |].
    now apply dict_wf_set.
  - unfold delete_project.
    destruct (dict_mem n (projects m)); simpl; [| exact H].
    now apply dict_wf_del.
  - unfold switch_to_project.
    destruct (dict_mem n (projects m)); simpl; exact H.
Qed.

(** The first key of a list of keys, as [delete_project] picks it. *)
Lemma first_remaining (keys : list string) :
  (if len keys >? 0
   then match py_index keys 0 with Ok first => Some first | Raised _ => None end
   else None) = hd_error keys.
Proof.
  destruct keys as [| k keys]; [reflexivity |].
  unfold len. simpl List.length.
  destruct (Z.gtb_spec (Z.of_nat (S (List.length keys))) 0); [| lia].
  reflexivity.
Qed.

(** C1. After every call of every sequence of [create_project],
    [delete_project] and [switch_to_project] calls on a fresh
    [ProjectManager], and before the first, [current_project_name] is
    [None] only if [projects] is empty, and otherwise is a key of
    [projects]. *)
Theorem selector_invariant_always (ops : list ManagerOp) :
  selector_invariant ProjectManager_init
  /\ Forall selector_invariant (manager_trace ProjectManager_init ops).
Proof.
  split.
  - apply selector_invariant_init.
  - apply selector_invariant_trace, selector_invariant_init.
Qed.

(** C2. [create_project] with a name already in the store returns [False]
    (it is a total function: nothing is raised) and the store it leaves
    is the store it was given: same mapping, same transcripts, same
    active name. *)
Theorem create_project_existing m (n now : string) :
  project_exists m n = true ->
  create_project m n now = (false, m).
Proof.
  unfold project_exists, create_project. intros H. now rewrite H.
Qed.

(** C3. [delete_project] with a name in the store returns [True] and
    removes that entry, keeping the other entries and their order; if the
    entry was the active one, the active name becomes the first remaining
    key in insertion order, or [None] when no key remains, and otherwise
    it is kept.  The scenario create A, create A, create B, delete A,
    delete B gives the results the specification lists. *)
Theorem delete_project_existing m (n : string) :
  project_exists m n = true ->
  let m' := snd (delete_project m n) in
  fst (delete_project m n) = true
  /\ project_exists m' n = false
  /\ (forall k, k <> n ->
        dict_get k (projects m') = dict_get k (projects m))
  /\ get_all_project_names m'
     = filter (fun k => negb (String.eqb k n)) (get_all_project_names m)
  /\ (current_project_name m = Some n ->
        current_project_name m' = hd_error (get_all_project_names m'))
  /\ (current_project_name m <> Some n ->
        current_project_name m' = current_project_name m)
  /\ (forall t1 t2 t3 : string,
        let s1 := create_project ProjectManager_init "A" t1 in
        let s2 := create_project (snd s1) "A" t2 in
        let s3 := create_project (snd s2) "B" t3 in
        let s4 := delete_project (snd s3) "A" in
        let s5 := delete_project (snd s4) "B" in
        fst s1 = true
        /\ fst s2 = false /\ get_project_count (snd s2) = 1
        /\ fst s3 = true /\ get_project_count (snd s3) = 2
        /\ current_project_name (snd s3) = Some "A"
        /\ fst s4 = true /\ current_project_name (snd s4) = Some "B"
        /\ fst s5 = true /\ current_project_name (snd s5) = None
        /\ get_project_count (snd s5) = 0).
Proof.
  unfold project_exists, get_all_project_names. intros H.
  unfold delete_project. rewrite H. simpl.
  split; [reflexivity |].
  split; [apply dict_mem_del_same |].
  split; [intros k Hk; now apply dict_get_del_other |].
  split; [apply dict_keys_del |].
  split; [| split].
  - intros Hc. rewrite Hc. simpl. rewrite String.eqb_refl.
    apply first_remaining.
  - intros Hc. destruct (current_project_name m) as [c |]; simpl;
      [| reflexivity].
    destruct (String.eqb_spec c n); [congruence | reflexivity].
  - intros t1 t2 t3. cbv. repeat split; reflexivity.
Qed.

(** C8. From a newly constructed [ConversationProject], after each
    operation of every sequence of [add_message] and [clear_messages]
    (and [toggle_research_mode]) calls, [message_count] equals
    [len(messages)]. *)
Theorem message_count_invariant (n now : string) (ops : list ProjectOp) :
  count_invariant (ConversationProject_init n now)
  /\ Forall count_invariant
       (project_trace (ConversationProject_init n now) ops).
Proof.
  split.
  - apply count_invariant_init.
  - apply count_invariant_trace, count_invariant_init.
Qed.

(** C9. [get_last_message] never raises: on a project with no message it
    returns [None], on one whose messages end with [x] it returns [x];
    after [clear_messages] it returns [None] and [message_count] is 0. *)
Theorem get_last_message_total p :
  (exists r, get_last_message p = Ok r)
  /\ (messages p = [] -> get_last_message p = Ok None)
  /\ (forall l x, messages p = (l ++ [x])%list ->
        get_last_message p = Ok (Some x))
  /\ get_last_message (clear_messages p) = Ok None
  /\ message_count (clear_messages p) = 0.
Proof.
  assert (Hnil : messages p = [] -> get_last_message p = Ok None).
  { unfold get_last_message. now intros ->. }
  assert (Hsnoc : forall l x, messages p = (l ++ [x])%list ->
                              get_last_message p = Ok (Some x)).
  { unfold get_last_message. intros l x ->.
    rewrite py_index_last, len_app.
    pose proof (len_nonneg l). unfold len at 2. simpl List.length.
    destruct (Z.gtb_spec (len l + Z.of_nat 1) 0); [reflexivity | lia]. }
  split; [| split; [exact Hnil | split; [exact Hsnoc | split; reflexivity]]].
  destruct (messages p) as [| y l] eqn:Hm using rev_ind.
  - exists None. now apply Hnil.
  - exists (Some y). now apply (Hsnoc l y).
Qed.
End project_manager_properties.


(* ================================================================= *)
(** ** Properties of the dispatch layer *)

Section string_facts.
Implicit Types (a b c : string).

Lemma string_app_assoc a b c : (a ++ b) ++ c = a ++ (b ++ c).
Proof. induction a as [| x a IH]; simpl; [reflexivity | now rewrite IH]. Qed.

Lemma string_app_empty_r a : a ++ "" = a.
Proof. induction a as [| x a IH]; simpl; [reflexivity | now rewrite IH]. Qed.
End string_facts.

Section prog_facts.
Context {A B : Type}.

Lemma first_request_bind (p : Prog A) (f : A -> Prog B) req :
  first_request p = Some req -> first_request (bind p f) = Some req.
Proof. destruct p; simpl; congruence. Qed.
End prog_facts.

Section app_properties.
Variables str_lower str_strip : string -> string.
Variables DEEP_RESEARCH_INSTRUCTIONS NORMAL_MODE_INSTRUCTIONS : string.

Local Abbreviation send_message_to_openai :=
  (send_message_to_openai str_lower str_strip
     DEEP_RESEARCH_INSTRUCTIONS NORMAL_MODE_INSTRUCTIONS).
Local Abbreviation send_message_to_huggingface :=
  (send_message_to_huggingface str_lower str_strip
     DEEP_RESEARCH_INSTRUCTIONS NORMAL_MODE_INSTRUCTIONS).
Local Abbreviation send_message_to_ai :=
  (send_message_to_ai str_lower str_strip
     DEEP_RESEARCH_INSTRUCTIONS NORMAL_MODE_INSTRUCTIONS).
Local Abbreviation render_chat_interface :=
  (render_chat_interface str_lower str_strip
     DEEP_RESEARCH_INSTRUCTIONS NORMAL_MODE_INSTRUCTIONS).
Local Abbreviation openai_system_prompt :=
  (openai_system_prompt DEEP_RESEARCH_INSTRUCTIONS NORMAL_MODE_INSTRUCTIONS).
Local Abbreviation huggingface_preamble :=
  (huggingface_preamble DEEP_RESEARCH_INSTRUCTIONS NORMAL_MODE_INSTRUCTIONS).
Local Abbreviation openai_on_error := (openai_on_error str_lower).
Local Abbreviation classify_error := (classify_error str_lower).
Local Abbreviation selected_credential := (selected_credential str_lower).

Implicit Types (env : Env) (history : list Message) (net : Provider).

(** The loop that copies the recent messages into the request. *)
Lemma copy_messages_loop history (init : list Message) :
  fold_left
    (fun messages message =>
       (messages ++ [ {| role := role message; content := content message |} ])%list)
    history init
  = (init ++ history)%list.
Proof.
  revert init. induction history as [| [r c] history IH]; intros init; simpl.
  - now rewrite app_nil_r.
  - rewrite IH, <- app_assoc. reflexivity.
Qed.

(** The loop that writes the recent messages into the prompt. *)
Lemma prompt_lines_loop history (init : string) :
  fold_left
    (fun full_prompt message =>
       let role := role message in
       let content := content message in
       if String.eqb role "user" then
         full_prompt ++ "User: " ++ content ++ nl
       else
         full_prompt ++ "Assistant: " ++ content ++ nl)
    history init
  = init ++ huggingface_lines history.
Proof.
  revert init. induction history as [| m history IH]; intros init; simpl.
  - now rewrite string_app_empty_r.
  - rewrite IH. unfold huggingface_line.
    destruct (String.eqb (role m) "user"); now rewrite string_app_assoc.
Qed.

Lemma recent_messages_last_ten history :
  py_slice_from history (- MAX_CONTEXT_MESSAGES)
  = skipn (List.length history - 10) history.
Proof.
  unfold MAX_CONTEXT_MESSAGES. rewrite py_slice_from_neg by lia.
  reflexivity.
Qed.

(** What [send_message_to_openai] does once it has a key: one request,
    then a result computed from the provider's answer. *)
Lemma send_message_to_openai_with_key env user_message history deep key :
  secrets env "OPENAI_API_KEY" = Some key ->
  exists k,
    send_message_to_openai env user_message history deep
    = ChatCreate
        {| chat_api_key := key;
           chat_model := selected_openai_model env;
           chat_messages :=
             ({| role := "system"; content := openai_system_prompt env deep |}
              :: skipn (List.length history - 10) history
              ++ [ {| role := "user"; content := user_message |} ])%list;
           chat_temperature := if deep then 0.5%Q else 0.7%Q;
           chat_max_tokens := if deep then 2500 else 1000;
           chat_timeout := 30 |} k
    /\ forall outcome,
         k outcome
         = Ret match outcome with
               | Raised error => openai_on_error error
               | Ok reply =>
                   match chat_first_content reply with
                   | Raised error => openai_on_error error
                   | Ok text => {| success := true; response := str_strip text |}
                   end
               end.
Proof.
  intros Hkey. unfold send_message_to_openai, get_api_key.
  simpl String.eqb. cbv iota. rewrite Hkey.
  rewrite copy_messages_loop, recent_messages_last_ten.
  destruct deep; eexists; (split; [reflexivity |]);
    intros [[[text | error]] | error]; reflexivity.
Qed.

(** The same for [send_message_to_huggingface]. *)
Lemma send_message_to_huggingface_with_key env user_message history deep key :
  secrets env "HF_API_KEY" = Some key ->
  exists k,
    send_message_to_huggingface env user_message history deep
    = HttpPost
        {| hf_api_url :=
             "https://api-inference.huggingface.co/models/"
             ++ selected_hf_model env;
           hf_headers := [ ("Authorization", "Bearer " ++ key);
                           ("Content-Type", "application/json") ];
           hf_inputs :=
             ((huggingface_preamble env deep
               ++ huggingface_lines (skipn (List.length history - 10) history))
              ++ "User: " ++ user_message ++ nl)
             ++ "Assistant: ";
           hf_max_length := if deep then 1500 else 500;
           hf_temperature := if deep then 0.5%Q else 0.7%Q;
           hf_return_full_text := false;
           hf_timeout := 30 |} k
    /\ forall outcome,
         k outcome
         = Ret match outcome with
               | Raised error => huggingface_on_error error
               | Ok reply =>
                   if status_code reply =? 200 then
                     match generated_text reply with
                     | Raised error => huggingface_on_error error
                     | Ok text =>
                         {| success := true; response := str_strip text |}
                     end
                   else
                     {| success := false;
                        response :=
                          "❌ API Error: Status code "
                          ++ str_of_int (status_code reply)
                          ++ ". The AI service might be busy. Try again in a moment." |}
               end.
Proof.
  intros Hkey. unfold send_message_to_huggingface, get_api_key.
  simpl String.eqb. cbv iota. rewrite Hkey.
  rewrite prompt_lines_loop, recent_messages_last_ten.
  destruct deep; eexists; (split; [reflexivity |]);
    intros [[code [text | error]] | error]; simpl;
    try destruct (code =? 200); reflexivity.
Qed.
(** The request [send_message_to_ai] sends first when the selected adapter
    has its credential. *)
Lemma send_message_to_ai_with_key env user_message history deep key :
  selected_credential env = Some key ->
  exists req,
    first_request (send_message_to_ai env user_message history deep) = Some req
    /\ match req with
       | ReqChat r =>
           selected_api_provider env = "openai"
           /\ r = {| chat_api_key := key;
                     chat_model := selected_openai_model env;
                     chat_messages :=
                       ({| role := "system";
                           content := openai_system_prompt env deep |}
                        :: skipn (List.length history - 10) history
                        ++ [ {| role := "user"; content := user_message |} ])%list;
                     chat_temperature := if deep then 0.5%Q else 0.7%Q;
                     chat_max_tokens := if deep then 2500 else 1000;
                     chat_timeout := 30 |}
       | ReqPost r =>
           selected_api_provider env <> "openai"
           /\ r = {| hf_api_url :=
                       "https://api-inference.huggingface.co/models/"
                       ++ selected_hf_model env;
                     hf_headers := [ ("Authorization", "Bearer " ++ key);
                                     ("Content-Type", "application/json") ];
                     hf_inputs :=
                       ((huggingface_preamble env deep
                         ++ huggingface_lines
                              (skipn (List.length history - 10) history))
                        ++ "User: " ++ user_message ++ nl)
                       ++ "Assistant: ";
                     hf_max_length := if deep then 1500 else 500;
                     hf_temperature := if deep then 0.5%Q else 0.7%Q;
                     hf_return_full_text := false;
                     hf_timeout := 30 |}
       end.
Proof.
  unfold selected_credential, send_message_to_ai, get_api_key.
  simpl String.eqb. cbv iota.
  destruct (String.eqb_spec (selected_api_provider env) "openai") as [Hp | Hp];
    intros Hkey.
  - destruct (send_message_to_openai_with_key env user_message history deep
                key Hkey) as (k & -> & _).
    eexists. split; [reflexivity |]. split; [exact Hp | reflexivity].
  - destruct (send_message_to_huggingface_with_key env user_message history
                deep key Hkey) as (k & -> & _).
    eexists. split; [reflexivity |]. split; [exact Hp | reflexivity].
Qed.

(** Without the credential the program is a plain return. *)
Lemma send_message_to_ai_without_key env user_message history deep :
  selected_credential env = None ->
  send_message_to_ai env user_message history deep
  = Ret {| success := false;
           response :=
             if String.eqb (selected_api_provider env) "openai" then
               "❌ OpenAI API key not found. Please set OPENAI_API_KEY in .streamlit/secrets.toml"
             else
               "❌ Hugging Face API key not found. Please set HF_API_KEY in .streamlit/secrets.toml" |}.
Proof.
  unfold selected_credential, send_message_to_ai,
    send_message_to_openai, send_message_to_huggingface,
    get_api_key.
  simpl String.eqb. cbv iota.
  destruct (String.eqb (selected_api_provider env) "openai");
    intros ->; reflexivity.
Qed.

Lemma skipn_recent_split history :
  exists dropped,
    history = (dropped ++ skipn (List.length history - 10) history)%list
    /\ List.length dropped = (List.length history - 10)%nat.
Proof.
  exists (firstn (List.length history - 10) history). split.
  - now rewrite firstn_skipn.
  - rewrite length_firstn. lia.
Qed.

Lemma huggingface_lines_app history1 history2 :
  huggingface_lines (history1 ++ history2)
  = huggingface_lines history1 ++ huggingface_lines history2.
Proof.
  induction history1 as [| m history1 IH]; simpl; [reflexivity |].
  now rewrite IH, string_app_assoc.
Qed.

(** C4. When the selected adapter has its credential, the request the
    dispatcher sends carries as context exactly the last 10 messages of the
    history (all of it when it has fewer), in order, between the system
    prompt and the new user message (chat adapter) or between the preamble
    and the new user line (completion adapter); the older messages are
    dropped.  A history of 15 messages loses its first 5. *)
Theorem dispatcher_forwards_last_ten env user_message history deep key :
  selected_credential env = Some key ->
  let recent := skipn (List.length history - 10) history in
  (exists dropped,
      history = (dropped ++ recent)%list
      /\ List.length dropped = (List.length history - 10)%nat)
  /\ List.length recent = Nat.min 10 (List.length history)
  /\ (List.length history = 15%nat ->
      recent = skipn 5 history /\ List.length recent = 10%nat)
  /\ exists req,
       first_request (send_message_to_ai env user_message history deep)
       = Some req
       /\ match req with
          | ReqChat r =>
              selected_api_provider env = "openai"
              /\ chat_messages r
                 = ({| role := "system";
                       content := openai_system_prompt env deep |}
                    :: recent
                    ++ [ {| role := "user"; content := user_message |} ])%list
          | ReqPost r =>
              selected_api_provider env <> "openai"
              /\ hf_inputs r
                 = ((huggingface_preamble env deep
                     ++ huggingface_lines recent)
                    ++ "User: " ++ user_message ++ nl)
                   ++ "Assistant: "
          end.
Proof.
  intros Hkey recent. subst recent.
  split; [apply skipn_recent_split |].
  split; [rewrite length_skipn; lia |].
  split.
  { intros H15. rewrite length_skipn, H15. split; reflexivity. }
  destruct (send_message_to_ai_with_key env user_message history deep key Hkey)
    as (req & Hreq & Hshape).
  exists req. split; [exact Hreq |].
  destruct req as [r | r]; destruct Hshape as [Hp ->]; split; auto.
Qed.

(** C5. When the selected adapter has its credential, the temperature and
    the output limit of the request depend on the research flag alone: 0.5
    and 2500 (chat adapter) or 1500 (completion adapter) in research mode,
    0.7 and 1000 or 500 otherwise. *)
Theorem generation_parameters_by_mode env user_message history deep key :
  selected_credential env = Some key ->
  exists req,
    first_request (send_message_to_ai env user_message history deep) = Some req
    /\ match req with
       | ReqChat r =>
           selected_api_provider env = "openai"
           /\ chat_temperature r = (if deep then 0.5%Q else 0.7%Q)
           /\ chat_max_tokens r = (if deep then 2500 else 1000)
       | ReqPost r =>
           selected_api_provider env <> "openai"
           /\ hf_temperature r = (if deep then 0.5%Q else 0.7%Q)
           /\ hf_max_length r = (if deep then 1500 else 500)
       end.
Proof.
  intros Hkey.
  destruct (send_message_to_ai_with_key env user_message history deep key Hkey)
    as (req & Hreq & Hshape).
  exists req. split; [exact Hreq |].
  destruct req as [r | r]; destruct Hshape as [Hp ->]; repeat split; auto.
Qed.

(** C6. When the credential of the selected adapter is absent, the
    dispatcher returns [success = False] with a message that says the API
    key was not found and names the missing secret, and it does so without
    sending any request, whatever the provider would answer. *)
Theorem missing_credential_reported env user_message history deep :
  selected_credential env = None ->
  exists message,
    send_message_to_ai env user_message history deep
    = Ret {| success := false; response := message |}
    /\ message
       = (if String.eqb (selected_api_provider env) "openai" then
            "❌ OpenAI API key not found. Please set OPENAI_API_KEY in .streamlit/secrets.toml"
          else
            "❌ Hugging Face API key not found. Please set HF_API_KEY in .streamlit/secrets.toml")
    /\ str_in "API key not found" message = true
    /\ str_in (if String.eqb (selected_api_provider env) "openai"
               then "OPENAI_API_KEY" else "HF_API_KEY") message = true
    /\ forall net,
         run net (send_message_to_ai env user_message history deep)
         = ([], Ok {| success := false; response := message |}).
Proof.
  intros Hkey. eexists. split; [| split; [reflexivity |]].
  - now apply send_message_to_ai_without_key.
  - split; [| split].
    + destruct (String.eqb (selected_api_provider env) "openai"); reflexivity.
    + destruct (String.eqb (selected_api_provider env) "openai"); reflexivity.
    + intros net. now rewrite send_message_to_ai_without_key.
Qed.
(** Running the adapters. *)
Lemma run_send_message_to_openai env user_message history deep net key :
  secrets env "OPENAI_API_KEY" = Some key ->
  exists req,
    run net (send_message_to_openai env user_message history deep)
    = ([ReqChat req],
       Ok match on_chat net req with
          | Raised error => openai_on_error error
          | Ok reply =>
              match chat_first_content reply with
              | Raised error => openai_on_error error
              | Ok text => {| success := true; response := str_strip text |}
              end
          end).
Proof.
  intros Hkey.
  destruct (send_message_to_openai_with_key env user_message history deep
              key Hkey) as (k & -> & Hk).
  eexists. simpl. rewrite Hk. reflexivity.
Qed.

Lemma run_send_message_to_huggingface env user_message history deep net key :
  secrets env "HF_API_KEY" = Some key ->
  exists req,
    run net (send_message_to_huggingface env user_message history deep)
    = ([ReqPost req],
       Ok match on_post net req with
          | Raised error => huggingface_on_error error
          | Ok reply =>
              if status_code reply =? 200 then
                match generated_text reply with
                | Raised error => huggingface_on_error error
                | Ok text => {| success := true; response := str_strip text |}
                end
              else
                {| success := false;
                   response :=
                     "❌ API Error: Status code "
                     ++ str_of_int (status_code reply)
                     ++ ". The AI service might be busy. Try again in a moment." |}
          end).
Proof.
  intros Hkey.
  destruct (send_message_to_huggingface_with_key env user_message history deep
              key Hkey) as (k & -> & Hk).
  eexists. simpl. rewrite Hk. reflexivity.
Qed.

Lemma run_send_message_to_ai env user_message history deep net :
  exists sent result,
    run net (send_message_to_ai env user_message history deep)
    = (sent, Ok result)
    /\ (List.length sent <= 1)%nat.
Proof.
  destruct (selected_credential env) as [key |] eqn:Hcred.
  - revert Hcred.
    unfold selected_credential, send_message_to_ai, get_api_key.
    simpl String.eqb. cbv iota.
    destruct (String.eqb (selected_api_provider env) "openai"); intros Hkey.
    + destruct (run_send_message_to_openai env user_message history deep net
                  key Hkey) as (req & ->).
      eexists. eexists. split; [reflexivity | simpl; lia].
    + destruct (run_send_message_to_huggingface env user_message history deep
                  net key Hkey) as (req & ->).
      eexists. eexists. split; [reflexivity | simpl; lia].
  - rewrite send_message_to_ai_without_key by assumption.
    eexists. eexists. split; [reflexivity | simpl; lia].
Qed.

Lemma openai_on_error_by_class error :
  openai_on_error error
  = {| success := false;
       response :=
         match classify_error error with
         | AuthenticationFailure =>
             "❌ Invalid OpenAI API key. Please check your OPENAI_API_KEY in secrets.toml"
         | QuotaFailure =>
             "❌ OpenAI API quota exceeded. Please check your billing at https://platform.openai.com/account/billing"
         | GenericFailure => "❌ OpenAI API Error: " ++ exn_text error
         end |}.
Proof.
  unfold openai_on_error, classify_error.
  destruct (str_in "authentication" (str_lower (exn_text error))
            || str_in "api key" (str_lower (exn_text error))); [reflexivity |].
  destruct (str_in "quota" (str_lower (exn_text error))
            || str_in "billing" (str_lower (exn_text error))); reflexivity.
Qed.

(** C7, as the code has it.  Whatever the provider answers, the dispatcher
    returns a result (no exception leaves it) and sends at most one request
    (no retry).  The chat adapter reports every exception of its call by
    class: the authentication message when the lowered error text mentions
    [authentication] or [api key], else the quota message when it mentions
    [quota] or [billing], else a generic message with the error text.  The
    completion adapter has no authentication or quota class: it reports a
    status other than 200 with a status-code message, a timeout with a
    timed-out message, and every other exception with an unexpected-error
    message carrying the error text.  Every such report has
    [success = False]. *)
Theorem failures_are_reported env user_message history deep net :
  (exists sent result,
      run net (send_message_to_ai env user_message history deep)
      = (sent, Ok result)
      /\ (List.length sent <= 1)%nat)
  /\ (forall error,
        openai_on_error error
        = {| success := false;
             response :=
               match classify_error error with
               | AuthenticationFailure =>
                   "❌ Invalid OpenAI API key. Please check your OPENAI_API_KEY in secrets.toml"
               | QuotaFailure =>
                   "❌ OpenAI API quota exceeded. Please check your billing at https://platform.openai.com/account/billing"
               | GenericFailure => "❌ OpenAI API Error: " ++ exn_text error
               end |})
  /\ (forall error,
        huggingface_on_error error
        = {| success := false;
             response :=
               if exn_is_timeout error then
                 "❌ Request timed out after 30 seconds. The AI service might be overloaded. Please try again."
               else "❌ Unexpected error: " ++ exn_text error |})
  /\ (forall key,
        secrets env "OPENAI_API_KEY" = Some key ->
        exists req,
          run net (send_message_to_openai env user_message history deep)
          = ([ReqChat req],
             Ok match on_chat net req with
                | Raised error => openai_on_error error
                | Ok reply =>
                    match chat_first_content reply with
                    | Raised error => openai_on_error error
                    | Ok text =>
                        {| success := true; response := str_strip text |}
                    end
                end))
  /\ (forall key,
        secrets env "HF_API_KEY" = Some key ->
        exists req,
          run net (send_message_to_huggingface env user_message history deep)
          = ([ReqPost req],
             Ok match on_post net req with
                | Raised error => huggingface_on_error error
                | Ok reply =>
                    if status_code reply =? 200 then
                      match generated_text reply with
                      | Raised error => huggingface_on_error error
                      | Ok text =>
                          {| success := true; response := str_strip text |}
                      end
                    else
                      {| success := false;
                         response :=
                           "❌ API Error: Status code "
                           ++ str_of_int (status_code reply)
                           ++ ". The AI service might be busy. Try again in a moment." |}
                end)).
Proof.
  split; [apply run_send_message_to_ai |].
  split; [apply openai_on_error_by_class |].
  split.
  { intros [[|] text]; reflexivity. }
  split.
  - intros key Hkey. now apply run_send_message_to_openai with (key := key).
  - intros key Hkey. now apply run_send_message_to_huggingface with (key := key).
Qed.

(** C10. When [render_chat_interface] handles an input (one that
    [if user_input:] accepts: a non-empty string) on a
    transcript of fewer than 10 messages and the selected adapter has its
    credential, the request it sends carries the new user message twice:
    as the last message of the included history and again as the message
    appended after it.  The chat adapter sends the system prompt, the prior
    messages and the user message twice; the completion adapter's prompt
    ends with the user line twice, then [Assistant: ]. *)
Theorem user_message_forwarded_twice env manager p (user_input key : string) :
  get_current_project manager = Some p ->
  truthy (Some user_input) = true ->
  (List.length (messages p) < 10)%nat ->
  selected_credential env = Some key ->
  exists req,
    first_request (render_chat_interface env manager (Some user_input))
    = Some req
    /\ match req with
       | ReqChat r =>
           selected_api_provider env = "openai"
           /\ chat_messages r
              = ({| role := "system";
                    content := openai_system_prompt env (deep_research_mode p) |}
                 :: messages p
                 ++ [ {| role := "user"; content := user_input |};
                      {| role := "user"; content := user_input |} ])%list
       | ReqPost r =>
           selected_api_provider env <> "openai"
           /\ hf_inputs r
              = ((huggingface_preamble env (deep_research_mode p)
                  ++ huggingface_lines (messages p)
                  ++ "User: " ++ user_input ++ nl)
                 ++ "User: " ++ user_input ++ nl)
                ++ "Assistant: "
       end.
Proof.
  intros Hcur Hne Hlen Hkey.
  unfold render_chat_interface. rewrite Hcur.
  destruct (current_project_name manager) as [c |] eqn:Hc;
    [| unfold get_current_project in Hcur; rewrite Hc in Hcur; discriminate].
  rewrite Hne.
  set (history := get_messages (add_message p "user" user_input)).
  destruct (send_message_to_ai_with_key env user_input history
              (deep_research_mode (add_message p "user" user_input)) key Hkey)
    as (req & Hreq & Hshape).
  exists req. split; [now apply first_request_bind |].
  assert (Hrecent : skipn (List.length history - 10) history
                    = (messages p
                       ++ [ {| role := "user"; content := user_input |} ])%list).
  { subst history. unfold get_messages, add_message. simpl messages.
    rewrite length_app. simpl List.length.
    replace (List.length (messages p) + 1 - 10)%nat with 0%nat by lia.
    reflexivity. }
  rewrite Hrecent in Hshape. simpl deep_research_mode in Hshape.
  destruct req as [r | r]; destruct Hshape as [Hp ->]; split; auto.
  - simpl chat_messages. now rewrite <- app_assoc.
  - simpl hf_inputs. rewrite huggingface_lines_app. simpl huggingface_lines.
    rewrite string_app_empty_r. reflexivity.
Qed.
End app_properties.

(* ================================================================= *)
(** ** The properties at concrete inputs *)

Example scenario_active_names :
  map current_project_name
    (manager_trace ProjectManager_init
       [OpCreate "A" "t1"; OpCreate "A" "t2"; OpCreate "B" "t3";
        OpDelete "A"; OpDelete "B"])
  = [Some "A"; Some "A"; Some "A"; Some "B"; None].
Proof. reflexivity. Qed.

Example slice_of_fifteen :
  map content (py_slice_from example_history_15 (- MAX_CONTEXT_MESSAGES))
  = ["6"; "7"; "8"; "9"; "10"; "11"; "12"; "13"; "14"; "15"].
Proof. reflexivity. Qed.

Example slice_of_short_history :
  py_slice_from (messages example_project) (- MAX_CONTEXT_MESSAGES)
  = messages example_project.
Proof. reflexivity. Qed.

Lemma create_project_existing_witness :
  project_exists example_manager "A" = true
  /\ create_project example_manager "A" "2025-10-29 14:32:00"
     = (false, example_manager).
Proof.
  split; [reflexivity |].
  apply (create_project_existing example_manager "A" "2025-10-29 14:32:00").
  reflexivity.
Defined.

Lemma delete_project_existing_witness :
  project_exists example_manager "A" = true
  /\ fst (delete_project example_manager "A") = true
  /\ current_project_name (snd (delete_project example_manager "A"))
     = Some "B".
Proof.
  split; [reflexivity |].
  destruct (delete_project_existing example_manager "A" eq_refl)
    as (Hok & _ & _ & _ & Hactive & _).
  split; [exact Hok |].
  exact (Hactive eq_refl).
Defined.

Lemma get_last_message_total_witness :
  messages (ConversationProject_init "A" "t") = []
  /\ get_last_message (ConversationProject_init "A" "t") = Ok None
  /\ messages example_project
     = ([ {| role := "user"; content := "How do I link notes?" |} ]
        ++ [ {| role := "assistant"; content := "Use [[note name]]" |} ])%list
  /\ get_last_message example_project
     = Ok (Some {| role := "assistant"; content := "Use [[note name]]" |}).
Proof.
  split; [reflexivity |].
  split.
  - destruct (get_last_message_total (ConversationProject_init "A" "t"))
      as (_ & Hempty & _).
    exact (Hempty eq_refl).
  - split; [reflexivity |].
    destruct (get_last_message_total example_project) as (_ & _ & Hlast & _).
    exact (Hlast _ _ eq_refl).
Defined.

Lemma dispatcher_forwards_last_ten_witness :
  selected_credential ascii_lower example_env_openai = Some "sk-test"
  /\ List.length example_history_15 = 15%nat
  /\ skipn (List.length example_history_15 - 10) example_history_15
     = skipn 5 example_history_15
  /\ exists r,
       first_request
         (send_message_to_ai ascii_lower ascii_strip "deep" "normal"
            example_env_openai "hi" example_history_15 false)
       = Some (ReqChat r)
       /\ List.length (chat_messages r) = 12%nat.
Proof.
  split; [reflexivity |]. split; [reflexivity |].
  destruct (dispatcher_forwards_last_ten ascii_lower ascii_strip "deep" "normal"
              example_env_openai "hi" example_history_15 false "sk-test"
              eq_refl)
    as (_ & _ & H15 & req & Hreq & Hshape).
  split; [exact (proj1 (H15 eq_refl)) |].
  destruct req as [r | r].
  - exists r. split; [exact Hreq |].
    destruct Hshape as [_ ->]. reflexivity.
  - destruct Hshape as [Hp _]. exfalso. apply Hp. reflexivity.
Defined.

Lemma generation_parameters_by_mode_witness :
  selected_credential ascii_lower example_env_huggingface = Some "hf-test"
  /\ exists r,
       first_request
         (send_message_to_ai ascii_lower ascii_strip "deep" "normal"
            example_env_huggingface "hi" [] true)
       = Some (ReqPost r)
       /\ hf_temperature r = 0.5%Q /\ hf_max_length r = 1500.
Proof.
  split; [reflexivity |].
  destruct (generation_parameters_by_mode ascii_lower ascii_strip "deep"
              "normal" example_env_huggingface "hi" [] true "hf-test" eq_refl)
    as (req & Hreq & Hshape).
  destruct req as [r | r].
  - destruct Hshape as [Hp _]. discriminate Hp.
  - exists r. split; [exact Hreq |]. exact (proj2 Hshape).
Defined.

Lemma missing_credential_reported_witness :
  selected_credential ascii_lower example_env_no_key = None
  /\ run (raising_provider "unreachable")
       (send_message_to_ai ascii_lower ascii_strip "deep" "normal"
          example_env_no_key "hi" [] false)
     = ([], Ok {| success := false;
                  response := "❌ OpenAI API key not found. Please set OPENAI_API_KEY in .streamlit/secrets.toml" |}).
Proof.
  split; [reflexivity |].
  destruct (missing_credential_reported ascii_lower ascii_strip "deep" "normal"
              example_env_no_key "hi" [] false eq_refl)
    as (message & _ & Hmessage & _ & _ & Hrun).
  rewrite Hrun, Hmessage. reflexivity.
Defined.

Lemma failures_are_reported_witness :
  secrets example_env_openai "OPENAI_API_KEY" = Some "sk-test"
  /\ secrets example_env_openai "HF_API_KEY" = Some "hf-test"
  /\ snd (run (raising_provider "Authentication failed")
            (send_message_to_openai ascii_lower ascii_strip "deep" "normal"
               example_env_openai "hi" [] false))
     = Ok {| success := false;
             response := "❌ Invalid OpenAI API key. Please check your OPENAI_API_KEY in secrets.toml" |}
  /\ snd (run (raising_provider "Authentication failed")
            (send_message_to_huggingface ascii_lower ascii_strip "deep"
               "normal" example_env_openai "hi" [] false))
     = Ok {| success := false;
             response := "❌ Unexpected error: Authentication failed" |}.
Proof.
  split; [reflexivity |]. split; [reflexivity |].
  destruct (failures_are_reported ascii_lower ascii_strip "deep" "normal"
              example_env_openai "hi" [] false
              (raising_provider "Authentication failed"))
    as (_ & _ & _ & Hopenai & Hhf).
  destruct (Hopenai "sk-test" eq_refl) as (req & ->).
  destruct (Hhf "hf-test" eq_refl) as (req' & ->).
  split; reflexivity.
Defined.

Lemma user_message_forwarded_twice_witness :
  get_current_project example_chat_manager = Some example_project
  /\ truthy (Some "hello") = true
  /\ (List.length (messages example_project) < 10)%nat
  /\ selected_credential ascii_lower example_env_openai = Some "sk-test"
  /\ exists r,
       first_request
         (render_chat_interface ascii_lower ascii_strip "deep" "normal"
            example_env_openai example_chat_manager (Some "hello"))
       = Some (ReqChat r)
       /\ map content (chat_messages r)
          = [ openai_system_prompt "deep" "normal" example_env_openai false;
              "How do I link notes?"; "Use [[note name]]"; "hello"; "hello" ].
Proof.
  assert (Hlen : (List.length (messages example_project) < 10)%nat)
    by (simpl; lia).
  split; [reflexivity |]. split; [reflexivity |]. split; [exact Hlen |].
  split; [reflexivity |].
  destruct (user_message_forwarded_twice ascii_lower ascii_strip "deep" "normal"
              example_env_openai example_chat_manager example_project
              "hello" "sk-test" eq_refl eq_refl Hlen eq_refl)
    as (req & Hreq & Hshape).
  destruct req as [r | r].
  - exists r. split; [exact Hreq |].
    destruct Hshape as [_ ->]. reflexivity.
  - destruct Hshape as [Hp _]. exfalso. apply Hp. reflexivity.
Defined.

(** C7 as the specification words it fails for the completion adapter:
    two exceptions that the chat adapter's tests put in the authentication
    class come back from [send_message_to_huggingface] as two different
    unexpected-error messages, and an HTTP 401 comes back as a status-code
    message, so its reports are not one message per class. *)
Lemma huggingface_has_no_authentication_class :
  classify_error ascii_lower
    {| exn_is_timeout := false; exn_text := "Authentication failed" |}
  = AuthenticationFailure
  /\ classify_error ascii_lower
       {| exn_is_timeout := false; exn_text := "Invalid API key" |}
     = AuthenticationFailure
  /\ snd (run (raising_provider "Authentication failed")
            (send_message_to_huggingface ascii_lower ascii_strip "deep"
               "normal" example_env_huggingface "hi" [] false))
     = Ok {| success := false;
             response := "❌ Unexpected error: Authentication failed" |}
  /\ snd (run (raising_provider "Invalid API key")
            (send_message_to_huggingface ascii_lower ascii_strip "deep"
               "normal" example_env_huggingface "hi" [] false))
     = Ok {| success := false;
             response := "❌ Unexpected error: Invalid API key" |}
  /\ snd (run (status_provider 401)
            (send_message_to_huggingface ascii_lower ascii_strip "deep"
               "normal" example_env_huggingface "hi" [] false))
     = Ok {| success := false;
             response := "❌ API Error: Status code 401. The AI service might be busy. Try again in a moment." |}
  /\ ~ reports_by_class ascii_lower huggingface_on_error.
Proof.
  repeat (split; [reflexivity |]).
  intros (auth_message & quota_message & generic_message & H).
  pose proof (H {| exn_is_timeout := false;
                   exn_text := "Authentication failed" |}) as H1.
  pose proof (H {| exn_is_timeout := false;
                   exn_text := "Invalid API key" |}) as H2.
  vm_compute in H1, H2. congruence.
Qed.

(* ================================================================= *)
(** ** Further properties of project_manager.py *)

Section more_dict_facts.
Context {V : Type}.
Implicit Types (d : dict V) (k : string) (v : V).

Lemma dict_get_set_same k v d : dict_get k (dict_set k v d) = Some v.
Proof.
  induction d as [| [k' v'] d IH]; simpl.
  - now rewrite String.eqb_refl.
  - destruct (String.eqb k' k) eqn:Hk; simpl; rewrite Hk; auto.
Qed.

Lemma dict_get_set_other k k' v d :
  k' <> k -> dict_get k' (dict_set k v d) = dict_get k' d.
Proof.
  intros Hne. induction d as [| [k0 v0] d IH]; simpl.
  - apply String.eqb_neq in Hne. rewrite String.eqb_sym. now rewrite Hne.
  - destruct (String.eqb k0 k) eqn:Hk; simpl.
    + apply String.eqb_eq in Hk. subst k0.
      apply not_eq_sym, String.eqb_neq in Hne. now rewrite Hne.
    + now rewrite IH.
Qed.

Lemma dict_mem_get k d :
  dict_mem k d = true -> exists v, dict_get k d = Some v /\ In (k, v) d.
Proof.
  induction d as [| [k' v'] d IH]; simpl; [discriminate |].
  destruct (String.eqb_spec k' k) as [-> | Hne]; simpl.
  - intros _. exists v'. auto.
  - intros H. destruct (IH H) as (v & Hv & Hin). exists v. auto.
Qed.

Lemma dict_get_mem k d v : dict_get k d = Some v -> dict_mem k d = true.
Proof.
  induction d as [| [k' v'] d IH]; simpl; [discriminate |].
  destruct (String.eqb k' k); simpl; auto.
Qed.

Lemma dict_get_In k d v : dict_get k d = Some v -> In (k, v) d.
Proof.
  induction d as [| [k' v'] d IH]; simpl; [discriminate |].
  destruct (String.eqb_spec k' k) as [-> | Hne].
  - intros [= ->]. now left.
  - intros H. right. auto.
Qed.

Lemma dict_del_absent k d : dict_mem k d = false -> dict_del k d = d.
Proof.
  induction d as [| [k' v'] d IH]; simpl; [reflexivity |].
  intros H. apply orb_false_iff in H as [Hk Hd]. rewrite Hk. simpl.
  now rewrite IH.
Qed.

Lemma dict_del_set_new k v d :
  dict_mem k d = false -> dict_del k (dict_set k v d) = d.
Proof.
  induction d as [| [k' v'] d IH]; simpl.
  - intros _. now rewrite String.eqb_refl.
  - intros H. apply orb_false_iff in H as [Hk Hd]. rewrite Hk. simpl.
    rewrite Hk. simpl. now rewrite IH.
Qed.

Lemma In_dict_set (P : string * V -> Prop) k v d :
  P (k, v) -> Forall P d -> Forall P (dict_set k v d).
Proof.
  intros Hkv. induction d as [| [k' v'] d IH]; simpl; intros Hd.
  - now constructor.
  - inversion Hd as [| x l Hx Hl]; subst.
    destruct (String.eqb_spec k' k) as [-> | Hne]; constructor; auto.
Qed.

Lemma Forall_dict_del (P : string * V -> Prop) k d :
  Forall P d -> Forall P (dict_del k d).
Proof.
  unfold dict_del. intros H. apply Forall_forall. intros x Hx.
  apply filter_In in Hx as [Hx _]. revert x Hx. now apply Forall_forall.
Qed.

Lemma dict_set_nonempty k v d : dict_set k v d <> [].
Proof.
  destruct d as [| [k' v'] d]; simpl; [discriminate |].
  destruct (String.eqb k' k); discriminate.
Qed.

Lemma dict_len_keys d : dict_len d = len (dict_keys d).
Proof. unfold dict_len, dict_keys, len. now rewrite length_map. Qed.
End more_dict_facts.

Section project_manager_extras.
Implicit Types (m : ProjectManager) (p : ConversationProject).

(** X1. [add_message] puts the new message last: [get_messages] returns the
    old messages followed by it, [get_last_message] returns it, the count
    grows by one, and the name, the creation date and the research flag
    are untouched. *)
Theorem add_message_appends p (r c : string) :
  get_messages (add_message p r c)
  = (get_messages p ++ [ {| role := r; content := c |} ])%list
  /\ get_last_message (add_message p r c)
     = Ok (Some {| role := r; content := c |})
  /\ message_count (add_message p r c) = message_count p + 1
  /\ name (add_message p r c) = name p
  /\ created_date (add_message p r c) = created_date p
  /\ deep_research_mode (add_message p r c) = deep_research_mode p.
Proof.
  split; [reflexivity |]. split; [| repeat split; reflexivity].
  unfold get_last_message, add_message. simpl messages.
  rewrite py_index_last, len_app.
  pose proof (len_nonneg (messages p)). unfold len at 2. simpl List.length.
  destruct (Z.gtb_spec (len (messages p) + Z.of_nat 1) 0); [reflexivity | lia].
Qed.

(** X2. [toggle_research_mode] flips the research flag and nothing else;
    applied twice it gives the project back. *)
Theorem toggle_research_mode_involutive p :
  toggle_research_mode (toggle_research_mode p) = p
  /\ deep_research_mode (toggle_research_mode p)
     = negb (deep_research_mode p)
  /\ get_messages (toggle_research_mode p) = get_messages p
  /\ message_count (toggle_research_mode p) = message_count p
  /\ name (toggle_research_mode p) = name p
  /\ created_date (toggle_research_mode p) = created_date p.
Proof.
  split; [| repeat split; reflexivity].
  destruct p as [n ms d r c]. unfold toggle_research_mode. simpl.
  now rewrite negb_involutive.
Qed.

Lemma project_identity_step p op :
  name (project_step p op) = name p
  /\ created_date (project_step p op) = created_date p.
Proof. destruct op; split; reflexivity. Qed.

Lemma project_identity_trace ops : forall p,
  Forall (fun p' => name p' = name p /\ created_date p' = created_date p)
    (project_trace p ops).
Proof.
  induction ops as [| op ops IH]; intros p; simpl; constructor.
  - apply project_identity_step.
  - destruct (project_identity_step p op) as [Hn Hd].
    specialize (IH (project_step p op)). rewrite Hn, Hd in IH. exact IH.
Qed.

(** X3. Whatever is done to a project after its construction, its name and
    creation date stay the ones it was constructed with, and the
    [message_count] of its summary is the length of what [get_messages]
    returns. *)
Theorem summary_tracks_project (n now : string) (ops : list ProjectOp) :
  Forall (fun p =>
            summary_name (get_summary p) = n
            /\ summary_created_date (get_summary p) = now
            /\ summary_message_count (get_summary p) = len (get_messages p)
            /\ summary_deep_research_mode (get_summary p)
               = deep_research_mode p)
    (project_trace (ConversationProject_init n now) ops).
Proof.
  pose proof (project_identity_trace ops (ConversationProject_init n now))
    as Hid.
  pose proof (count_invariant_trace ops (ConversationProject_init n now)
                (count_invariant_init n now)) as Hcount.
  rewrite Forall_forall in *. intros p Hp.
  destruct (Hid p Hp) as [Hn Hd]. specialize (Hcount p Hp).
  unfold get_summary, get_messages. simpl. auto.
Qed.

(** X4. [create_project] with a name not in the store returns [True]; the
    name then exists and comes last in [get_all_project_names], the count
    grows by one, the new project is empty, in normal mode and dated
    [now], the projects already there are untouched, and the active name
    changes only if there was none. *)
Theorem create_project_new m (n now : string) :
  project_exists m n = false ->
  let m' := snd (create_project m n now) in
  fst (create_project m n now) = true
  /\ project_exists m' n = true
  /\ get_all_project_names m' = (get_all_project_names m ++ [n])%list
  /\ get_project_count m' = get_project_count m + 1
  /\ dict_get n (projects m') = Some (ConversationProject_init n now)
  /\ (forall k, k <> n ->
        dict_get k (projects m') = dict_get k (projects m))
  /\ current_project_name m'
     = match current_project_name m with
       | None => Some n
       | Some c => Some c
       end.
Proof.
  unfold project_exists, get_all_project_names, get_project_count.
  intros H. unfold create_project. rewrite H. simpl.
  split; [reflexivity |].
  assert (Hkeys : dict_keys (dict_set n (ConversationProject_init n now)
                               (projects m))
                  = (dict_keys (projects m) ++ [n])%list)
    by now apply dict_keys_set_new.
  split.
  { apply dict_mem_true_iff. rewrite Hkeys. apply in_or_app. right. now left. }
  split; [exact Hkeys |].
  split.
  { rewrite !dict_len_keys, Hkeys, len_app. reflexivity. }
  split; [apply dict_get_set_same |].
  split; [intros k Hk; now apply dict_get_set_other |].
  reflexivity.
Qed.

(** X5. A call of [create_project], [delete_project] or
    [switch_to_project] returns [False] exactly when it cannot be done
    ([create_project] on a name already in the store, the other two on a
    name that is not in it), and a call that returns [False] leaves the
    store as it was. *)
Theorem failed_calls_change_nothing m op :
  (fst (manager_step m op) = false <->
   match op with
   | OpCreate n _ => project_exists m n = true
   | OpDelete n => project_exists m n = false
   | OpSwitch n => project_exists m n = false
   end)
  /\ (fst (manager_step m op) = false -> snd (manager_step m op) = m).
Proof.
  unfold project_exists.
  destruct op as [n now | n | n]; simpl;
    unfold create_project, delete_project, switch_to_project;
    destruct (dict_mem n (projects m)); simpl;
    (split; [split |]); congruence.
Qed.

(** X6. [switch_to_project] with a name in the store returns [True], makes
    it the active name, changes no project, and [get_current_project] then
    returns the project stored under that name. *)
Theorem switch_to_project_existing m (n : string) :
  project_exists m n = true ->
  let m' := snd (switch_to_project m n) in
  fst (switch_to_project m n) = true
  /\ current_project_name m' = Some n
  /\ projects m' = projects m
  /\ exists p, dict_get n (projects m) = Some p
               /\ get_current_project m' = Some p.
Proof.
  unfold project_exists. intros H. unfold switch_to_project. rewrite H. simpl.
  repeat split.
  destruct (dict_mem_get _ _ H) as (p & Hp & _). exists p.
  split; [exact Hp |].
  unfold get_current_project. simpl. now rewrite H.
Qed.

(** X7. Creating a project under a new name and deleting it again gives
    back the store one started from, active name included, when the active
    selector obeys its invariant. *)
Theorem create_then_delete m (n now : string) :
  selector_invariant m ->
  project_exists m n = false ->
  snd (delete_project (snd (create_project m n now)) n) = m.
Proof.
  unfold selector_invariant, project_exists. intros Hinv Hn.
  unfold create_project. rewrite Hn. simpl.
  unfold delete_project. simpl.
  assert (Hmem : dict_mem n (dict_set n (ConversationProject_init n now)
                               (projects m)) = true).
  { apply dict_get_mem with (v := ConversationProject_init n now).
    apply dict_get_set_same. }
  rewrite Hmem. simpl. rewrite dict_del_set_new by assumption.
  destruct m as [d [c |]]; simpl in *.
  - destruct (String.eqb_spec c n) as [-> | Hne]; [| reflexivity].
    apply dict_mem_false_iff in Hn. contradiction.
  - subst d. rewrite String.eqb_refl. reflexivity.
Qed.

(** X8. No call of [create_project], [delete_project] or
    [switch_to_project] changes the transcript of a project that is in the
    store before and after the call. *)
Theorem manager_calls_keep_transcripts m op (k : string) :
  project_exists m k = true ->
  project_exists (snd (manager_step m op)) k = true ->
  dict_get k (projects (snd (manager_step m op))) = dict_get k (projects m).
Proof.
  unfold project_exists. intros Hk Hk'.
  destruct op as [n now | n | n]; simpl in *.
  - unfold create_project in *.
    destruct (dict_mem n (projects m)) eqn:Hn; simpl in *; [reflexivity |].
    apply dict_get_set_other. intros ->. congruence.
  - unfold delete_project in *.
    destruct (dict_mem n (projects m)) eqn:Hn; simpl in *; [| reflexivity].
    apply dict_get_del_other. intros ->.
    now rewrite dict_mem_del_same in Hk'.
  - unfold switch_to_project.
    destruct (dict_mem n (projects m)); reflexivity.
Qed.

Lemma store_invariant_init : store_invariant ProjectManager_init.
Proof.
  repeat split; simpl; constructor.
Qed.

Lemma entries_invariant_fresh (n now : string) :
  name (ConversationProject_init n now) = n
  /\ count_invariant (ConversationProject_init n now).
Proof. split; reflexivity. Qed.

Lemma store_invariant_step m op :
  store_invariant m -> store_invariant (snd (manager_step m op)).
Proof.
  intros (Hsel & Hwf & Hent).
  split; [now apply selector_invariant_step |].
  split; [now apply dict_wf_step |].
  unfold entries_invariant in *.
  destruct op as [n now | n | n]; simpl.
  - unfold create_project.
    destruct (dict_mem n (projects m)); simpl; [exact Hent |].
    apply In_dict_set; [apply entries_invariant_fresh | exact Hent].
  - unfold delete_project.
    destruct (dict_mem n (projects m)); simpl; [| exact Hent].
    now apply Forall_dict_del.
  - unfold switch_to_project.
    destruct (dict_mem n (projects m)); simpl; exact Hent.
Qed.

Lemma store_invariant_trace ops : forall m,
  store_invariant m -> Forall store_invariant (manager_trace m ops).
Proof.
  induction ops as [| op ops IH]; intros m H; simpl; constructor.
  - now apply store_invariant_step.
  - apply IH. now apply store_invariant_step.
Qed.

Lemma entries_invariant_get m (k : string) p :
  entries_invariant m -> dict_get k (projects m) = Some p ->
  name p = k /\ count_invariant p.
Proof.
  unfold entries_invariant. intros Hent Hget.
  apply dict_get_In in Hget. rewrite Forall_forall in Hent.
  exact (Hent _ Hget).
Qed.

Lemma get_current_project_none m :
  store_invariant m ->
  (get_current_project m = None <-> projects m = []).
Proof.
  intros (Hsel & _ & _). unfold selector_invariant, get_current_project in *.
  destruct (current_project_name m) as [c |].
  - apply dict_mem_true_iff in Hsel as Hmem. rewrite Hmem. simpl.
    destruct (dict_mem_get _ _ Hmem) as (p & Hp & Hin). rewrite Hp.
    split; [discriminate |]. intros Hnil. rewrite Hnil in Hin. contradiction.
  - tauto.
Qed.

Lemma get_current_project_named m p :
  store_invariant m ->
  get_current_project m = Some p ->
  current_project_name m = Some (name p)
  /\ dict_get (name p) (projects m) = Some p
  /\ count_invariant p.
Proof.
  intros (_ & _ & Hent). unfold get_current_project.
  destruct (current_project_name m) as [c |]; [| discriminate].
  destruct (dict_mem c (projects m)); simpl; [| discriminate].
  intros Hget. destruct (entries_invariant_get m c p Hent Hget) as [<- Hc].
  auto.
Qed.

Lemma project_count_zero m : get_project_count m = 0 <-> projects m = [].
Proof.
  unfold get_project_count, dict_len, len.
  destruct (projects m); simpl; split; intros H; try reflexivity;
    try discriminate; lia.
Qed.

(** X9. In every store reached from a new [ProjectManager] by
    [create_project], [delete_project] and [switch_to_project] calls, the
    project names are pairwise different, the project stored under a name
    carries that name, [get_project_count] is the number of names,
    [get_current_project] returns [None] exactly when there is no project,
    and the project it returns is the one named by
    [current_project_name]. *)
Theorem reachable_store_consistent (ops : list ManagerOp) :
  Forall (fun m =>
            NoDup (get_all_project_names m)
            /\ (forall k p, dict_get k (projects m) = Some p -> name p = k)
            /\ get_project_count m = len (get_all_project_names m)
            /\ (get_current_project m = None <-> get_project_count m = 0)
            /\ (forall p, get_current_project m = Some p ->
                   current_project_name m = Some (name p)
                   /\ dict_get (name p) (projects m) = Some p))
    (manager_trace ProjectManager_init ops).
Proof.
  pose proof (store_invariant_trace ops _ store_invariant_init) as H.
  rewrite Forall_forall in *. intros m Hm. specialize (H m Hm).
  split; [apply H |].
  split.
  { intros k p Hget. destruct H as (_ & _ & Hent).
    now destruct (entries_invariant_get m k p Hent Hget). }
  split; [apply dict_len_keys |].
  split.
  { rewrite project_count_zero. now apply get_current_project_none. }
  intros p Hp. destruct (get_current_project_named m p H Hp) as (H1 & H2 & _).
  auto.
Qed.

Lemma summary_names m :
  entries_invariant m ->
  map summary_name (get_all_projects_summary m) = get_all_project_names m.
Proof.
  unfold entries_invariant, get_all_projects_summary, get_all_project_names,
    dict_keys.
  induction (projects m) as [| [k p] d IH]; simpl; intros H; [reflexivity |].
  inversion H as [| x l [Hname _] Hl]; subst. simpl in Hname.
  now rewrite Hname, IH.
Qed.

(** X10. In every store reached from a new [ProjectManager],
    [get_all_projects_summary] gives one summary per project, in the order
    of [get_all_project_names], each under the name of its project. *)
Theorem summaries_follow_names (ops : list ManagerOp) :
  Forall (fun m =>
            map summary_name (get_all_projects_summary m)
            = get_all_project_names m
            /\ len (get_all_projects_summary m) = get_project_count m)
    (manager_trace ProjectManager_init ops).
Proof.
  pose proof (store_invariant_trace ops _ store_invariant_init) as H.
  rewrite Forall_forall in *. intros m Hm.
  destruct (H m Hm) as (_ & _ & Hent).
  split; [now apply summary_names |].
  unfold get_all_projects_summary, get_project_count, dict_len, len.
  now rewrite length_map.
Qed.
End project_manager_extras.

(* ================================================================= *)
(** ** Further properties of the dispatch layer *)

Section more_prog_facts.
Context {A B : Type}.

Lemma run_bind (net : Provider) (p : Prog A) (f : A -> Prog B) :
  run net (bind p f)
  = match snd (run net p) with
    | Ok a => ((fst (run net p) ++ fst (run net (f a)))%list,
               snd (run net (f a)))
    | Raised e => (fst (run net p), Raised e)
    end.
Proof.
  induction p as [a | e | req k IH | req k IH]; simpl.
  - now destruct (run net (f a)).
  - reflexivity.
  - rewrite IH. destruct (run net (k (on_chat net req))) as [sent [a | e]];
      simpl; [| reflexivity].
    now destruct (run net (f a)).
  - rewrite IH. destruct (run net (k (on_post net req))) as [sent [a | e]];
      simpl; [| reflexivity].
    now destruct (run net (f a)).
Qed.
End more_prog_facts.

Section app_extras.
Variables str_lower str_strip : string -> string.
Variables DEEP_RESEARCH_INSTRUCTIONS NORMAL_MODE_INSTRUCTIONS : string.

Local Abbreviation send_message_to_ai :=
  (send_message_to_ai str_lower str_strip
     DEEP_RESEARCH_INSTRUCTIONS NORMAL_MODE_INSTRUCTIONS).
Local Abbreviation render_chat_interface :=
  (render_chat_interface str_lower str_strip
     DEEP_RESEARCH_INSTRUCTIONS NORMAL_MODE_INSTRUCTIONS).
Local Abbreviation openai_system_prompt :=
  (openai_system_prompt DEEP_RESEARCH_INSTRUCTIONS NORMAL_MODE_INSTRUCTIONS).
Local Abbreviation selected_credential := (selected_credential str_lower).

Implicit Types (env : Env) (history : list Message) (net : Provider).

Lemma openai_on_error_fails error :
  success (openai_on_error str_lower error) = false.
Proof. now rewrite openai_on_error_by_class. Qed.

Lemma huggingface_on_error_fails error :
  success (huggingface_on_error error) = false.
Proof. unfold huggingface_on_error. now destruct (exn_is_timeout error). Qed.

(** The dispatcher with a credential: one request, and a result that is a
    success exactly when the provider gave a text. *)
Lemma run_send_message_to_ai_with_key env user_message history deep net key :
  selected_credential env = Some key ->
  exists req result,
    first_request (send_message_to_ai env user_message history deep)
    = Some req
    /\ run net (send_message_to_ai env user_message history deep)
       = ([req], Ok result)
    /\ match provider_text net req with
       | Some text => result = {| success := true;
                                  response := str_strip text |}
       | None => success result = false
       end.
Proof.
  unfold selected_credential, send_message_to_ai, get_api_key.
  simpl String.eqb. cbv iota.
  destruct (String.eqb (selected_api_provider env) "openai"); intros Hkey.
  - destruct (send_message_to_openai_with_key str_lower str_strip
                DEEP_RESEARCH_INSTRUCTIONS NORMAL_MODE_INSTRUCTIONS
                env user_message history deep key Hkey) as (k & -> & Hk).
    eexists. eexists. split; [reflexivity |]. simpl. rewrite Hk. simpl.
    split; [reflexivity |].
    destruct (on_chat net _) as [[[text | e]] | e]; simpl;
      auto using openai_on_error_fails.
  - destruct (send_message_to_huggingface_with_key str_lower str_strip
                DEEP_RESEARCH_INSTRUCTIONS NORMAL_MODE_INSTRUCTIONS
                env user_message history deep key Hkey) as (k & -> & Hk).
    eexists. eexists. split; [reflexivity |]. simpl. rewrite Hk. simpl.
    split; [reflexivity |].
    destruct (on_post net _) as [[code [text | e]] | e]; simpl;
      try destruct (code =? 200); simpl;
      auto using huggingface_on_error_fails.
Qed.

(** X11. When the selected adapter has its credential, the dispatcher
    sends exactly one request and reports success exactly when the
    provider gave a text for it (the call returned, the text could be read
    and, for the completion adapter, the status was 200); the response is
    then that text with surrounding whitespace stripped. *)
Theorem success_iff_provider_text env user_message history deep net key :
  selected_credential env = Some key ->
  exists req result,
    run net (send_message_to_ai env user_message history deep)
    = ([req], Ok result)
    /\ (success result = true <-> provider_text net req <> None)
    /\ (forall text, provider_text net req = Some text ->
          result = {| success := true; response := str_strip text |}).
Proof.
  intros Hkey.
  destruct (run_send_message_to_ai_with_key env user_message history deep net
              key Hkey) as (req & result & _ & Hrun & Hres).
  exists req, result. split; [exact Hrun |].
  destruct (provider_text net req) as [text |].
  - subst result. split; [split; [discriminate | reflexivity] |].
    now intros t [= <-].
  - split; [| discriminate]. rewrite Hres. split; [discriminate | congruence].
Qed.

(** X12. Every request the dispatcher sends carries the 30 second timeout
    and the credential and model the session selected: the chat adapter
    passes the key to the client and the selected OpenAI model, with the
    system prompt as first message; the completion adapter posts to the
    URL of the selected Hugging Face model with the key as bearer token,
    JSON content type and [return_full_text] off. *)
Theorem request_carries_selection env user_message history deep key :
  selected_credential env = Some key ->
  exists req,
    first_request (send_message_to_ai env user_message history deep) = Some req
    /\ match req with
       | ReqChat r =>
           chat_timeout r = 30
           /\ chat_api_key r = key
           /\ chat_model r = selected_openai_model env
           /\ hd_error (chat_messages r)
              = Some {| role := "system";
                        content := openai_system_prompt env deep |}
       | ReqPost r =>
           hf_timeout r = 30
           /\ hf_api_url r
              = "https://api-inference.huggingface.co/models/"
                ++ selected_hf_model env
           /\ hf_headers r = [ ("Authorization", "Bearer " ++ key);
                               ("Content-Type", "application/json") ]
           /\ hf_return_full_text r = false
       end.
Proof.
  intros Hkey.
  destruct (send_message_to_ai_with_key str_lower str_strip
              DEEP_RESEARCH_INSTRUCTIONS NORMAL_MODE_INSTRUCTIONS
              env user_message history deep key Hkey)
    as (req & Hreq & Hshape).
  exists req. split; [exact Hreq |].
  destruct req as [r | r]; destruct Hshape as [_ ->]; repeat split.
Qed.

Lemma run_send_message_to_ai_total env user_message history deep net :
  exists sent result,
    run net (send_message_to_ai env user_message history deep)
    = (sent, Ok result)
    /\ (List.length sent <= 1)%nat.
Proof.
  apply (run_send_message_to_ai str_lower str_strip
           DEEP_RESEARCH_INSTRUCTIONS NORMAL_MODE_INSTRUCTIONS).
Qed.

(** What handling an input does to the store. *)
Lemma run_render_chat_interface env manager p (user_input : string) net :
  get_current_project manager = Some p ->
  truthy (Some user_input) = true ->
  exists sent result,
    run net (send_message_to_ai env user_input
               (get_messages (add_message p "user" user_input))
               (deep_research_mode p))
    = (sent, Ok result)
    /\ (List.length sent <= 1)%nat
    /\ run net (render_chat_interface env manager (Some user_input))
       = (sent,
          Ok (store_current_project manager
                (add_message (add_message p "user" user_input)
                   "assistant" (response result)))).
Proof.
  intros Hcur Htruthy.
  destruct (run_send_message_to_ai_total env user_input
              (get_messages (add_message p "user" user_input))
              (deep_research_mode p) net) as (sent & result & Hrun & Hlen).
  exists sent, result. split; [exact Hrun |]. split; [exact Hlen |].
  unfold render_chat_interface, store_current_project. rewrite Hcur.
  destruct (current_project_name manager) as [c |] eqn:Hc;
    [| unfold get_current_project in Hcur; rewrite Hc in Hcur; discriminate].
  rewrite Htruthy, run_bind. simpl deep_research_mode. rewrite Hrun. simpl.
  now rewrite app_nil_r.
Qed.

Lemma get_current_project_key manager p :
  get_current_project manager = Some p ->
  exists key, current_project_name manager = Some key
              /\ dict_mem key (projects manager) = true.
Proof.
  unfold get_current_project.
  destruct (current_project_name manager) as [c |]; [| discriminate].
  destruct (dict_mem c (projects manager)) eqn:Hmem; [| discriminate].
  intros _. exists c. auto.
Qed.

Lemma store_current_project_spec manager p p' :
  get_current_project manager = Some p ->
  let manager' := store_current_project manager p' in
  get_current_project manager' = Some p'
  /\ current_project_name manager' = current_project_name manager
  /\ get_all_project_names manager' = get_all_project_names manager
  /\ (forall k, current_project_name manager <> Some k ->
        dict_get k (projects manager') = dict_get k (projects manager)).
Proof.
  intros Hcur. destruct (get_current_project_key manager p Hcur)
    as (key & Hkey & Hmem).
  unfold store_current_project. rewrite Hkey. simpl.
  split.
  { unfold get_current_project. simpl.
    rewrite (dict_get_mem key _ p') by apply dict_get_set_same.
    simpl. apply dict_get_set_same. }
  split; [reflexivity |].
  split.
  { unfold get_all_project_names. simpl. now apply dict_keys_set_old. }
  intros k Hk. apply dict_get_set_other. congruence.
Qed.

(** X13. When [render_chat_interface] handles an input, whatever the
    provider does, it returns, sends at most one request, and leaves in the
    active transcript exactly two more messages: the user's input, then an
    assistant message with the response of the dispatcher, be it an answer
    or an error text.  The active name, the list of project names and
    every other project are untouched. *)
Theorem chat_turn_recorded env manager p (user_input : string) net :
  get_current_project manager = Some p ->
  truthy (Some user_input) = true ->
  exists sent result manager' p',
    run net (render_chat_interface env manager (Some user_input))
    = (sent, Ok manager')
    /\ (List.length sent <= 1)%nat
    /\ run net (send_message_to_ai env user_input
                  (get_messages p
                   ++ [ {| role := "user"; content := user_input |} ])%list
                  (deep_research_mode p))
       = (sent, Ok result)
    /\ get_current_project manager' = Some p'
    /\ get_messages p'
       = (get_messages p
          ++ [ {| role := "user"; content := user_input |};
               {| role := "assistant"; content := response result |} ])%list
    /\ message_count p' = message_count p + 2
    /\ deep_research_mode p' = deep_research_mode p
    /\ current_project_name manager' = current_project_name manager
    /\ get_all_project_names manager' = get_all_project_names manager
    /\ (forall k, current_project_name manager <> Some k ->
          dict_get k (projects manager') = dict_get k (projects manager)).
Proof.
  intros Hcur Htruthy.
  destruct (run_render_chat_interface env manager p user_input net Hcur
              Htruthy) as (sent & result & Hsend & Hlen & Hrun).
  set (p' := add_message (add_message p "user" user_input) "assistant"
               (response result)) in *.
  destruct (store_current_project_spec manager p p' Hcur)
    as (H1 & H2 & H3 & H4).
  exists sent, result, (store_current_project manager p'), p'.
  split; [exact Hrun |]. split; [exact Hlen |]. split; [exact Hsend |].
  split; [exact H1 |].
  split.
  { subst p'. unfold get_messages, add_message. simpl.
    now rewrite <- app_assoc. }
  split; [subst p'; simpl; lia |].
  split; [reflexivity |]. auto.
Qed.

Lemma render_chat_interface_idle env manager (user_input : option string) :
  truthy user_input = false \/ get_current_project manager = None ->
  render_chat_interface env manager user_input = Ret manager.
Proof.
  unfold render_chat_interface. intros [H | H].
  - rewrite H.
    destruct (get_current_project manager);
      destruct (current_project_name manager); reflexivity.
  - now rewrite H.
Qed.

(** X14. When there is no input to handle ([st.chat_input] returned [None]
    or the empty string) or no current project, [render_chat_interface]
    sends no request, whatever the provider, and leaves the store as it
    is. *)
Theorem chat_without_input env manager (user_input : option string) :
  truthy user_input = false \/ get_current_project manager = None ->
  render_chat_interface env manager user_input = Ret manager
  /\ forall net,
       run net (render_chat_interface env manager user_input)
       = ([], Ok manager).
Proof.
  intros H. rewrite (render_chat_interface_idle env manager user_input H).
  split; reflexivity.
Qed.
End app_extras.

(* ================================================================= *)
(** ** Properties of the session state, the sidebar and main *)

Section more_store_facts.
Context {V : Type}.
Implicit Types (d : dict V) (k : string).

Lemma dict_del_length k d :
  dict_wf d -> (List.length d <= S (List.length (dict_del k d)))%nat.
Proof.
  unfold dict_wf. induction d as [| [k' v'] d IH]; simpl; intros Hwf; [lia |].
  inversion Hwf as [| x l Hnotin Hnodup]; subst.
  destruct (String.eqb_spec k' k) as [-> | Hne]; simpl.
  - rewrite dict_del_absent; [lia |]. now apply dict_mem_false_iff.
  - specialize (IH Hnodup). lia.
Qed.

Lemma find_all_false (f : string -> bool) (l : list string) :
  (forall x, f x = false) -> find f l = None.
Proof.
  intros H. induction l as [| x l IH]; simpl; [reflexivity |].
  now rewrite H.
Qed.
End more_store_facts.

Section store_current_facts.
Implicit Types (m : ProjectManager) (p : ConversationProject).

Lemma store_current_project_invariant m p p' :
  store_invariant m ->
  get_current_project m = Some p ->
  name p' = name p ->
  count_invariant p' ->
  store_invariant (store_current_project m p')
  /\ get_all_project_names (store_current_project m p')
     = get_all_project_names m.
Proof.
  intros Hinv Hcur Hname Hcount.
  destruct (get_current_project_named m p Hinv Hcur) as (Hkey & Hget & _).
  destruct Hinv as (Hsel & Hwf & Hent).
  assert (Hmem : dict_mem (name p) (projects m) = true)
    by now apply dict_get_mem with (v := p).
  unfold store_current_project. rewrite Hkey.
  assert (Hkeys : dict_keys (dict_set (name p) p' (projects m))
                  = dict_keys (projects m))
    by now apply dict_keys_set_old.
  split; [| exact Hkeys].
  split; [| split].
  - unfold selector_invariant. simpl. rewrite Hkeys.
    now apply dict_mem_true_iff.
  - unfold dict_wf. simpl. now rewrite Hkeys.
  - unfold entries_invariant. simpl. apply In_dict_set; auto.
Qed.

Lemma nonempty_names m :
  projects m <> [] <-> get_all_project_names m <> [].
Proof.
  unfold get_all_project_names, dict_keys.
  destruct (projects m); simpl; split; intros H; congruence.
Qed.
End store_current_facts.

Section ui_properties.
Variables str_lower str_strip : string -> string.
Variables DEEP_RESEARCH_INSTRUCTIONS NORMAL_MODE_INSTRUCTIONS : string.
Variable the_secrets : string -> option string.
Variable the_knowledge : string.

Local Abbreviation initialize_session_state :=
  (initialize_session_state str_lower the_secrets).
Local Abbreviation session_view := (session_view the_secrets the_knowledge).
Local Abbreviation sidebar_projects := (sidebar_projects str_strip).
Local Abbreviation render_sidebar := (render_sidebar str_strip).
Local Abbreviation render_chat_interface :=
  (render_chat_interface str_lower str_strip
     DEEP_RESEARCH_INSTRUCTIONS NORMAL_MODE_INSTRUCTIONS).
Local Abbreviation main :=
  (main str_lower str_strip DEEP_RESEARCH_INSTRUCTIONS
     NORMAL_MODE_INSTRUCTIONS the_secrets the_knowledge).
Local Abbreviation session_runs :=
  (session_runs str_lower str_strip DEEP_RESEARCH_INSTRUCTIONS
     NORMAL_MODE_INSTRUCTIONS the_secrets the_knowledge).

Implicit Types (ui : UIInput) (ss : SessionState) (app : App) (env : Env)
  (m : ProjectManager) (p : ConversationProject) (net : Provider).


Ltac known_model :=
  unfold known_openai_model, known_hf_model; simpl; tauto.

Lemma known_models_initial :
  known_openai_model "gpt-3.5-turbo"
  /\ known_hf_model "microsoft/DialoGPT-medium".
Proof. split; known_model. Qed.

Lemma sidebar_configuration_result ui env :
  exists env',
    sidebar_configuration ui env = Ok env'
    /\ secrets env' = secrets env
    /\ get_all_examples_as_context env' = get_all_examples_as_context env
    /\ match ui_provider ui with
       | Choice2_0 =>
           selected_api_provider env' = "openai"
           /\ selected_openai_model env'
              = nth (choice3_index (ui_model ui))
                  ["gpt-3.5-turbo"; "gpt-4o-mini"; "gpt-4"] ""
           /\ selected_hf_model env' = selected_hf_model env
       | Choice2_1 =>
           selected_api_provider env' = "huggingface"
           /\ selected_hf_model env'
              = nth (choice3_index (ui_model ui))
                  ["microsoft/DialoGPT-medium"; "gpt2";
                   "meta-llama/Llama-2-7b-chat-hf"] ""
           /\ selected_openai_model env' = selected_openai_model env
       end.
Proof.
  unfold sidebar_configuration.
  destruct (ui_provider ui); destruct (ui_model ui); simpl;
    eexists; repeat split; reflexivity.
Qed.

(** X16. The selectors of [render_sidebar] never raise, and they normalise
    the selection whatever it was before: the provider becomes [openai] or
    [huggingface] as the first selector says, the model of that provider
    becomes the identifier listed at the position the second selector
    says, and the model of the other provider, the secrets and the
    knowledge text are kept. *)
Theorem sidebar_configuration_normalises ui env :
  exists env',
    sidebar_configuration ui env = Ok env'
    /\ secrets env' = secrets env
    /\ get_all_examples_as_context env' = get_all_examples_as_context env
    /\ match ui_provider ui with
       | Choice2_0 =>
           selected_api_provider env' = "openai"
           /\ selected_openai_model env'
              = nth (choice3_index (ui_model ui))
                  ["gpt-3.5-turbo"; "gpt-4o-mini"; "gpt-4"] ""
           /\ selected_hf_model env' = selected_hf_model env
       | Choice2_1 =>
           selected_api_provider env' = "huggingface"
           /\ selected_hf_model env'
              = nth (choice3_index (ui_model ui))
                  ["microsoft/DialoGPT-medium"; "gpt2";
                   "meta-llama/Llama-2-7b-chat-hf"] ""
           /\ selected_openai_model env' = selected_openai_model env
       end.
Proof.
  unfold sidebar_configuration.
  destruct (ui_provider ui); destruct (ui_model ui); simpl;
    eexists; repeat split; reflexivity.
Qed.

Lemma sidebar_configuration_invariant ui m env :
  app_invariant {| app_manager := m; app_env := env |} ->
  exists env',
    sidebar_configuration ui env = Ok env'
    /\ secrets env' = secrets env
    /\ get_all_examples_as_context env' = get_all_examples_as_context env
    /\ app_invariant {| app_manager := m; app_env := env' |}
    /\ canonical_provider env'.
Proof.
  intros (Hstore & Hne & Hnames & Hom & Hhm). simpl in *.
  destruct (sidebar_configuration_result ui env)
    as (env' & Henv & Hsec & Hkn & Hshape).
  exists env'. split; [exact Henv |]. split; [exact Hsec |].
  split; [exact Hkn |].
  unfold app_invariant, canonical_provider. simpl.
  destruct (ui_provider ui); destruct Hshape as (Hp & Hmodel & Hother);
    rewrite Hp, Hmodel, Hother;
    (split; [| auto]); repeat (split; [assumption |]);
    destruct (ui_model ui); simpl; try assumption;
    try (split; [| assumption]); known_model.
Qed.

Lemma auto_select_model_invariant m env (research_mode : bool) :
  app_invariant {| app_manager := m; app_env := env |} ->
  canonical_provider env ->
  app_invariant {| app_manager := m;
                   app_env := auto_select_model env research_mode |}
  /\ canonical_provider (auto_select_model env research_mode).
Proof.
  intros (Hstore & Hne & Hnames & Hom & Hhm) Hcan. simpl in *.
  unfold app_invariant, canonical_provider, auto_select_model in *. simpl.
  destruct research_mode;
    destruct (String.eqb (selected_api_provider env) "openai"); simpl;
    (split; [| exact Hcan]);
    (split; [exact Hstore |]); (split; [exact Hne |]);
    (split; [exact Hnames |]);
    (split; [assumption || known_model | assumption || known_model]).
Qed.

Lemma create_project_invariant m env (n now : string) :
  app_invariant {| app_manager := m; app_env := env |} ->
  n <> "" ->
  app_invariant {| app_manager := snd (create_project m n now);
                   app_env := env |}.
Proof.
  intros (Hstore & Hne & Hnames & Hom & Hhm) Hn. simpl in *.
  unfold app_invariant. simpl.
  split; [exact (store_invariant_step m (OpCreate n now) Hstore) |].
  unfold create_project, get_all_project_names in *.
  destruct (dict_mem n (projects m)) eqn:Hmem; simpl; [auto |].
  split; [apply dict_set_nonempty |].
  split; [| auto].
  rewrite dict_keys_set_new by assumption.
  apply Forall_app. split; [assumption | now constructor].
Qed.

Lemma switch_to_project_invariant m env (n : string) :
  app_invariant {| app_manager := m; app_env := env |} ->
  app_invariant {| app_manager := snd (switch_to_project m n);
                   app_env := env |}.
Proof.
  intros (Hstore & Hne & Hnames & Hom & Hhm). simpl in *.
  unfold app_invariant. simpl.
  split; [exact (store_invariant_step m (OpSwitch n) Hstore) |].
  unfold switch_to_project, get_all_project_names in *.
  destruct (dict_mem n (projects m)); simpl; auto.
Qed.

Lemma delete_project_invariant m env (n : string) :
  app_invariant {| app_manager := m; app_env := env |} ->
  (len (get_all_project_names m) >? 1) = true ->
  app_invariant {| app_manager := snd (delete_project m n);
                   app_env := env |}.
Proof.
  intros (Hstore & Hne & Hnames & Hom & Hhm) Hlen. simpl in *.
  unfold app_invariant. simpl.
  split; [exact (store_invariant_step m (OpDelete n) Hstore) |].
  unfold delete_project, get_all_project_names in *.
  destruct (dict_mem n (projects m)) eqn:Hmem; simpl; [| auto].
  split; [| split; [| auto]].
  - destruct Hstore as (_ & Hwf & _).
    pose proof (dict_del_length n (projects m) Hwf) as Hdel.
    unfold len, dict_keys in Hlen. rewrite length_map in Hlen.
    apply Z.gtb_lt in Hlen.
    destruct (dict_del n (projects m)); [simpl in Hdel; lia | discriminate].
  - rewrite dict_keys_del. apply Forall_forall. intros x Hx.
    apply filter_In in Hx as [Hx _]. rewrite Forall_forall in Hnames. auto.
Qed.

Lemma store_current_project_app_invariant m env p p' :
  app_invariant {| app_manager := m; app_env := env |} ->
  get_current_project m = Some p ->
  name p' = name p ->
  count_invariant p' ->
  app_invariant {| app_manager := store_current_project m p';
                   app_env := env |}.
Proof.
  intros (Hstore & Hne & Hnames & Hom & Hhm) Hcur Hname Hcount. simpl in *.
  destruct (store_current_project_invariant m p p' Hstore Hcur Hname Hcount)
    as (Hstore' & Hkeys).
  unfold app_invariant. simpl.
  split; [exact Hstore' |].
  split; [apply nonempty_names; rewrite Hkeys; now apply nonempty_names |].
  rewrite Hkeys. auto.
Qed.

Lemma sidebar_projects_invariant ui m env :
  app_invariant {| app_manager := m; app_env := env |} ->
  canonical_provider env ->
  app_invariant (flow_state (sidebar_projects ui m env))
  /\ canonical_provider (app_env (flow_state (sidebar_projects ui m env)))
  /\ secrets (app_env (flow_state (sidebar_projects ui m env))) = secrets env
  /\ get_all_examples_as_context
       (app_env (flow_state (sidebar_projects ui m env)))
     = get_all_examples_as_context env.
Proof.
  intros Hinv Hcan. unfold sidebar_projects.
  assert (Hactions :
            let f := sidebar_project_actions ui m env
                       (get_all_project_names m) in
            app_invariant (flow_state f)
            /\ canonical_provider (app_env (flow_state f))
            /\ secrets (app_env (flow_state f)) = secrets env
            /\ get_all_examples_as_context (app_env (flow_state f))
               = get_all_examples_as_context env).
  { unfold sidebar_project_actions.
    destruct (get_current_project m) as [p |] eqn:Hcur; simpl; [| auto].
    destruct (get_current_project_named m p (proj1 Hinv) Hcur)
      as (_ & _ & Hcount).
    destruct (negb (Bool.eqb (ui_research_toggle ui) (deep_research_mode p)));
      simpl.
    { destruct (auto_select_model_invariant
                  (store_current_project m (toggle_research_mode p)) env
                  (ui_research_toggle ui)) as (H1 & H2); auto.
      - now apply store_current_project_app_invariant with (p := p).
      - split; [exact H1 |]. split; [exact H2 |].
        unfold auto_select_model.
        destruct (ui_research_toggle ui);
          destruct (String.eqb (selected_api_provider env) "openai");
          split; reflexivity. }
    destruct (ui_clear_clicked ui); simpl.
    { split; [| auto].
      apply store_current_project_app_invariant with (p := p); auto.
      reflexivity. }
    destruct (len (get_all_project_names m) >? 1) eqn:Hlen; simpl; [| auto].
    destruct (ui_delete_clicked ui); simpl; [| auto].
    split; [| auto]. now apply delete_project_invariant. }
  destruct (ui_create_clicked ui); simpl.
  - destruct (negb (String.eqb (ui_new_project_name ui) "")
              && negb (String.eqb (str_strip (ui_new_project_name ui)) ""))
      eqn:Hname; simpl.
    + apply andb_true_iff in Hname as [_ Hstrip].
      apply negb_true_iff, String.eqb_neq in Hstrip.
      pose proof (create_project_invariant m env
                    (str_strip (ui_new_project_name ui))
                    (ui_now_new_project ui) Hinv Hstrip) as Hcreated.
      destruct (create_project m (str_strip (ui_new_project_name ui))
                  (ui_now_new_project ui)) as [[|] m'] eqn:Hcreate;
        simpl in *; [auto |].
      destruct (if len (get_all_project_names m) >? 0
                then find (ui_project_clicked ui) (get_all_project_names m)
                else None) as [n |]; simpl; [| exact Hactions].
      split; [| auto]. now apply switch_to_project_invariant.
    + destruct (if len (get_all_project_names m) >? 0
                then find (ui_project_clicked ui) (get_all_project_names m)
                else None) as [n |]; simpl; [| exact Hactions].
      split; [| auto]. now apply switch_to_project_invariant.
  - destruct (if len (get_all_project_names m) >? 0
              then find (ui_project_clicked ui) (get_all_project_names m)
              else None) as [n |]; simpl; [| exact Hactions].
    split; [| auto]. now apply switch_to_project_invariant.
Qed.
Lemma render_sidebar_invariant ui app :
  app_invariant app ->
  exists flow,
    render_sidebar ui app = Ok flow
    /\ app_invariant (flow_state flow)
    /\ canonical_provider (app_env (flow_state flow)).
Proof.
  destruct app as [m env]. intros Hinv. unfold render_sidebar. simpl.
  destruct (sidebar_configuration_invariant ui m env Hinv)
    as (env' & -> & _ & _ & Hinv' & Hcan).
  eexists. split; [reflexivity |].
  destruct (sidebar_projects_invariant ui m env' Hinv' Hcan) as (H1 & H2 & _).
  auto.
Qed.

Lemma session_store_invariant app ss :
  app_invariant app ->
  canonical_provider (app_env app) ->
  ss_setup_complete ss <> None ->
  session_invariant (session_store app ss).
Proof.
  intros (Hstore & Hne & Hnames & Hom & Hhm) Hcan Hsetup.
  exists (app_manager app), (selected_api_provider (app_env app)),
    (selected_openai_model (app_env app)), (selected_hf_model (app_env app)).
  simpl. repeat (split; [reflexivity || assumption |]). assumption.
Qed.

Lemma initialize_session_state_invariant (now : string) ss :
  ss = empty_session \/ session_invariant ss ->
  ss_setup_complete (initialize_session_state now ss) <> None
  /\ exists app,
       session_view (initialize_session_state now ss) = Ok app
       /\ app_invariant app.
Proof.
  intros [-> | (m & pr & om & hm & Hm & Hsetup & Hpr & Hom & Hhm & Hstore
                & Hne & Hnames & _ & Hkom & Hkhm)].
  - split; [discriminate |].
    unfold initialize_session_state, session_view. simpl.
    destruct (the_secrets "API_PROVIDER");
      (eexists; split; [reflexivity |]);
      unfold app_invariant; simpl;
      (split;
       [exact (store_invariant_step ProjectManager_init
                 (OpCreate "General Questions" now) store_invariant_init) |]);
      (split; [discriminate |]);
      (split; [repeat constructor; discriminate |]);
      apply known_models_initial.
  - destruct ss as [m0 f0 pr0 om0 hm0]. simpl in *. subst.
    split; [destruct f0; [discriminate | congruence] |].
    unfold initialize_session_state, session_view. simpl.
    eexists. split; [reflexivity |].
    unfold app_invariant. simpl. auto.
Qed.

Lemma render_chat_interface_invariant env m (user_input : option string) net :
  app_invariant {| app_manager := m; app_env := env |} ->
  exists sent m',
    run net (render_chat_interface env m user_input) = (sent, Ok m')
    /\ (List.length sent <= 1)%nat
    /\ app_invariant {| app_manager := m'; app_env := env |}.
Proof.
  intros Hinv.
  destruct (get_current_project m) as [p |] eqn:Hcur.
  - destruct (truthy user_input) eqn:Htruthy.
    + destruct user_input as [u |]; [| discriminate].
      destruct (run_render_chat_interface str_lower str_strip
                  DEEP_RESEARCH_INSTRUCTIONS NORMAL_MODE_INSTRUCTIONS
                  env m p u net Hcur Htruthy)
        as (sent & result & _ & Hlen & ->).
      eexists. eexists. split; [reflexivity |]. split; [exact Hlen |].
      destruct (get_current_project_named m p (proj1 Hinv) Hcur)
        as (_ & _ & Hcount).
      apply store_current_project_app_invariant with (p := p); auto.
      unfold count_invariant in *. simpl.
      rewrite !len_app, Hcount. unfold len. simpl. lia.
    + rewrite (render_chat_interface_idle str_lower str_strip
                 DEEP_RESEARCH_INSTRUCTIONS NORMAL_MODE_INSTRUCTIONS
                 env m user_input (or_introl Htruthy)).
      exists [], m. simpl. split; [reflexivity |]. split; [lia | exact Hinv].
  - rewrite (render_chat_interface_idle str_lower str_strip
               DEEP_RESEARCH_INSTRUCTIONS NORMAL_MODE_INSTRUCTIONS
               env m user_input (or_intror Hcur)).
    exists [], m. simpl. split; [reflexivity |]. split; [lia | exact Hinv].
Qed.

Lemma main_invariant ui ss net :
  ss = empty_session \/ session_invariant ss ->
  exists sent ss',
    run net (main ui ss) = (sent, Ok ss')
    /\ (List.length sent <= 1)%nat
    /\ session_invariant ss'.
Proof.
  intros Hpre. unfold main.
  destruct (initialize_session_state_invariant (ui_now_default_project ui) ss
              Hpre) as (Hsetup & app & -> & Hinv).
  destruct (render_sidebar_invariant ui app Hinv)
    as (flow & -> & Hinv' & Hcan).
  destruct flow as [app' | app']; simpl in Hinv', Hcan.
  - destruct app' as [m' env']. simpl in *.
    destruct (render_chat_interface_invariant env' m' (ui_chat_input ui) net
                Hinv') as (sent & m'' & Hrun & Hlen & Hinv'').
    rewrite run_bind, Hrun. simpl.
    eexists. eexists. split; [reflexivity |].
    split; [rewrite app_nil_r; exact Hlen |].
    now apply session_store_invariant.
  - exists [], (session_store app' (initialize_session_state
                                      (ui_now_default_project ui) ss)).
    simpl. split; [reflexivity |]. split; [lia |].
    now apply session_store_invariant.
Qed.

(** X17. Through a whole browser session, from the first run on an empty
    session state and whatever the widgets return and the provider
    answers, every run of [main] ends without raising, sends at most one
    request, and leaves a session state in which every key is set, the
    store is well formed (distinct names, each project under its own name
    and counting its messages), no project has the empty name, the
    provider is [openai] or [huggingface], both selected models are ones
    the sidebar offers, and there is a current project. *)
Theorem session_never_breaks (steps : list (UIInput * Provider)) :
  List.length (session_runs empty_session steps) = List.length steps
  /\ Forall (fun r =>
               (List.length (fst r) <= 1)%nat
               /\ exists ss manager p,
                    snd r = Ok ss
                    /\ session_invariant ss
                    /\ ss_project_manager ss = Some manager
                    /\ get_current_project manager = Some p)
       (session_runs empty_session steps).
Proof.
  assert (Hgen : forall steps ss,
             ss = empty_session \/ session_invariant ss ->
             List.length (session_runs ss steps) = List.length steps
             /\ Forall (fun r =>
                          (List.length (fst r) <= 1)%nat
                          /\ exists ss manager p,
                               snd r = Ok ss
                               /\ session_invariant ss
                               /\ ss_project_manager ss = Some manager
                               /\ get_current_project manager = Some p)
                  (session_runs ss steps)).
  { clear steps. induction steps as [| [ui net] steps IH]; intros ss Hpre.
    - split; [reflexivity | constructor].
    - destruct (main_invariant ui ss net Hpre)
        as (sent & ss' & Hrun & Hlen & Hinv).
      simpl. rewrite Hrun. simpl.
      destruct (IH ss' (or_intror Hinv)) as (IHlen & IHall).
      split; [now rewrite IHlen |].
      constructor; [| exact IHall].
      simpl. split; [exact Hlen |].
      pose proof Hinv as (m & pr & om & hm & Hm & _ & _ & _ & _ & Hstore
                          & Hne & _).
      destruct (get_current_project m) as [p |] eqn:Hcur.
      + exists ss', m, p. auto.
      + apply (get_current_project_none m Hstore) in Hcur. contradiction. }
  apply Hgen. now left.
Qed.
Lemma sidebar_project_actions_names ui m env :
  forall n,
    In n (get_all_project_names
            (app_manager
               (flow_state (sidebar_project_actions ui m env
                              (get_all_project_names m))))) ->
    In n (get_all_project_names m).
Proof.
  intros n. unfold sidebar_project_actions.
  destruct (get_current_project m) as [p |] eqn:Hcur; simpl; [| auto].
  destruct (negb (Bool.eqb (ui_research_toggle ui) (deep_research_mode p)));
    simpl.
  { destruct (store_current_project_spec m p (toggle_research_mode p) Hcur)
      as (_ & _ & -> & _). auto. }
  destruct (ui_clear_clicked ui); simpl.
  { destruct (store_current_project_spec m p (clear_messages p) Hcur)
      as (_ & _ & -> & _). auto. }
  destruct (len (get_all_project_names m) >? 1); simpl; [| auto].
  destruct (ui_delete_clicked ui); simpl; [| auto].
  unfold delete_project, get_all_project_names.
  destruct (dict_mem (name p) (projects m)); simpl; [| auto].
  intros Hin. now apply in_dict_keys_del in Hin.
Qed.

(** X18. The only project name a run of [render_sidebar] can add to the
    store is the text of the name field with surrounding whitespace
    stripped, and only when the create button was clicked and the stripped
    text is not empty: a blank name never creates a project. *)
Theorem sidebar_adds_only_stripped_names ui app flow (n : string) :
  render_sidebar ui app = Ok flow ->
  In n (get_all_project_names (app_manager (flow_state flow))) ->
  In n (get_all_project_names (app_manager app))
  \/ (ui_create_clicked ui = true
      /\ n = str_strip (ui_new_project_name ui)
      /\ n <> "").
Proof.
  destruct app as [m env]. unfold render_sidebar. simpl.
  destruct (sidebar_configuration ui env) as [env' | e]; [| discriminate].
  intros [= <-]. unfold sidebar_projects.
  assert (Hrest :
            In n (get_all_project_names
                    (app_manager
                       (flow_state
                          match
                            (if len (get_all_project_names m) >? 0
                             then find (ui_project_clicked ui)
                                    (get_all_project_names m)
                             else None)
                          with
                          | Some project_name =>
                              Rerun {| app_manager :=
                                         snd (switch_to_project m project_name);
                                       app_env := env' |}
                          | None =>
                              sidebar_project_actions ui m env'
                                (get_all_project_names m)
                          end))) ->
            In n (get_all_project_names m)).
  { destruct (if len (get_all_project_names m) >? 0
              then find (ui_project_clicked ui) (get_all_project_names m)
              else None) as [k |]; simpl.
    - unfold switch_to_project.
      destruct (dict_mem k (projects m)); simpl; auto.
    - apply sidebar_project_actions_names. }
  destruct (ui_create_clicked ui); simpl; [| auto].
  destruct (negb (String.eqb (ui_new_project_name ui) "")
            && negb (String.eqb (str_strip (ui_new_project_name ui)) ""))
    eqn:Hname; simpl; [| auto].
  apply andb_true_iff in Hname as [_ Hstrip].
  apply negb_true_iff, String.eqb_neq in Hstrip.
  destruct (create_project m (str_strip (ui_new_project_name ui))
              (ui_now_new_project ui)) as [[|] m'] eqn:Hcreate;
    simpl; [| auto].
  unfold create_project in Hcreate.
  destruct (dict_mem (str_strip (ui_new_project_name ui)) (projects m))
    eqn:Hmem; [discriminate |].
  injection Hcreate as <-. unfold get_all_project_names at 1. simpl.
  rewrite dict_keys_set_new by assumption.
  intros Hin. apply in_app_or in Hin as [Hin | [<- | []]]; auto.
Qed.

(** X19. When the research toggle differs from the flag of the current
    project (and neither the create button nor a project button ended the
    run before), [render_sidebar] flips the flag, keeps the transcript,
    asks for a rerun, and selects the model for the provider chosen in
    this run: the strongest one when the toggle is on, the fast one when
    it is off, whatever the model selector returned in the same run. *)
Theorem research_toggle_selects_model ui app p :
  ui_create_clicked ui = false ->
  (forall n, ui_project_clicked ui n = false) ->
  get_current_project (app_manager app) = Some p ->
  ui_research_toggle ui = negb (deep_research_mode p) ->
  exists app',
    render_sidebar ui app = Ok (Rerun app')
    /\ get_current_project (app_manager app')
       = Some (toggle_research_mode p)
    /\ get_all_project_names (app_manager app')
       = get_all_project_names (app_manager app)
    /\ match ui_provider ui with
       | Choice2_0 =>
           selected_api_provider (app_env app') = "openai"
           /\ selected_openai_model (app_env app')
              = (if ui_research_toggle ui then "gpt-4" else "gpt-3.5-turbo")
           /\ selected_hf_model (app_env app')
              = selected_hf_model (app_env app)
       | Choice2_1 =>
           selected_api_provider (app_env app') = "huggingface"
           /\ selected_hf_model (app_env app')
              = (if ui_research_toggle ui
                 then "meta-llama/Llama-2-7b-chat-hf"
                 else "microsoft/DialoGPT-medium")
           /\ selected_openai_model (app_env app')
              = selected_openai_model (app_env app)
       end.
Proof.
  destruct app as [m env]. simpl. intros Hcreate Hclick Hcur Htoggle.
  unfold render_sidebar. simpl.
  destruct (sidebar_configuration_result ui env)
    as (env' & -> & _ & _ & Hshape).
  unfold sidebar_projects. rewrite Hcreate.
  rewrite (find_all_false _ _ Hclick).
  assert (Hnone : (if len (get_all_project_names m) >? 0
                   then @None string else None) = None)
    by now destruct (len (get_all_project_names m) >? 0).
  rewrite Hnone. unfold sidebar_project_actions. rewrite Hcur, Htoggle.
  rewrite Bool.eqb_negb1. simpl negb. cbv iota.
  eexists. split; [reflexivity |]. simpl.
  destruct (store_current_project_spec m p (toggle_research_mode p) Hcur)
    as (H1 & _ & H3 & _).
  split; [exact H1 |]. split; [exact H3 |].
  unfold auto_select_model.
  destruct (ui_provider ui); destruct Hshape as (Hp & Hmodel & Hother);
    rewrite Hp; simpl String.eqb; cbv iota;
    destruct (negb (deep_research_mode p)); simpl; auto.
Qed.

(** X20. The delete button of [render_sidebar] (reached when no earlier
    widget ended the run) removes the current project only while another
    project exists: with more than one project the current one is deleted,
    a rerun is asked for and the first remaining project becomes the
    current one; with a single project nothing is deleted. *)
Theorem sidebar_delete_guarded ui m env p :
  store_invariant m ->
  get_current_project m = Some p ->
  ui_create_clicked ui = false ->
  (forall n, ui_project_clicked ui n = false) ->
  ui_research_toggle ui = deep_research_mode p ->
  ui_clear_clicked ui = false ->
  ui_delete_clicked ui = true ->
  if get_project_count m >? 1 then
    exists m',
      sidebar_projects ui m env
      = Rerun {| app_manager := m'; app_env := env |}
      /\ m' = snd (delete_project m (name p))
      /\ project_exists m' (name p) = false
      /\ get_all_project_names m'
         = filter (fun k => negb (String.eqb k (name p)))
             (get_all_project_names m)
      /\ current_project_name m' = hd_error (get_all_project_names m')
      /\ get_current_project m' <> None
  else
    sidebar_projects ui m env
    = Continue {| app_manager := m; app_env := env |}.
Proof.
  intros Hinv Hcur Hcreate Hclick Htoggle Hclear Hdelete.
  destruct (get_current_project_named m p Hinv Hcur) as (Hkey & Hget & _).
  assert (Hexists : project_exists m (name p) = true)
    by (unfold project_exists; now apply dict_get_mem with (v := p)).
  unfold sidebar_projects. rewrite Hcreate.
  rewrite (find_all_false _ _ Hclick).
  assert (Hnone : (if len (get_all_project_names m) >? 0
                   then @None string else None) = None)
    by now destruct (len (get_all_project_names m) >? 0).
  rewrite Hnone. unfold sidebar_project_actions.
  rewrite Hcur, Htoggle, Bool.eqb_reflx, Hclear, Hdelete. simpl negb.
  cbv iota.
  unfold get_project_count. rewrite dict_len_keys.
  fold (get_all_project_names m).
  destruct (len (get_all_project_names m) >? 1) eqn:Hlen; [| reflexivity].
  eexists. split; [reflexivity |]. split; [reflexivity |].
  pose proof (store_invariant_step m (OpDelete (name p)) Hinv) as Hinv'.
  simpl in Hinv'. revert Hinv'.
  unfold delete_project, project_exists, get_all_project_names in *.
  rewrite Hexists, Hkey. simpl. rewrite String.eqb_refl. intros Hinv'.
  split; [apply dict_mem_del_same |].
  split; [apply dict_keys_del |].
  split; [apply first_remaining |].
  intros Hnone'. apply (get_current_project_none _ Hinv') in Hnone'.
  simpl in Hnone'.
  destruct Hinv as (_ & Hwf & _).
  pose proof (dict_del_length (name p) (projects m) Hwf) as Hdel.
  rewrite Hnone' in Hdel. simpl in Hdel.
  unfold len, dict_keys in Hlen. rewrite length_map in Hlen.
  apply Z.gtb_lt in Hlen. lia.
Qed.
End ui_properties.

(* ================================================================= *)
(** ** Properties of obsidian_knowledge.py *)

Section substring_facts.
Implicit Types (a b c needle hay : string).

Lemma prefix_empty hay : String.prefix "" hay = true.
Proof. now destruct hay. Qed.

Lemma prefix_app a b : String.prefix a (a ++ b) = true.
Proof.
  induction a as [| x a IH]; simpl; [apply prefix_empty |].
  destruct (ascii_dec x x); [exact IH | congruence].
Qed.

Lemma prefix_split needle hay :
  String.prefix needle hay = true -> exists rest, hay = needle ++ rest.
Proof.
  revert hay. induction needle as [| x needle IH]; intros hay H.
  - now exists hay.
  - destruct hay as [| y hay]; simpl in H; [discriminate |].
    destruct (ascii_dec x y) as [-> | _]; [| discriminate].
    destruct (IH hay H) as (rest & ->). now exists rest.
Qed.

Lemma str_in_prefix needle hay :
  String.prefix needle hay = true -> str_in needle hay = true.
Proof. intros H. destruct hay; cbn [str_in]; now rewrite H. Qed.

Lemma str_in_app_r needle a b :
  str_in needle b = true -> str_in needle (a ++ b) = true.
Proof.
  intros H. induction a as [| x a IH]; cbn [str_in append]; [exact H |].
  rewrite IH. now destruct (String.prefix needle (String x (a ++ b))).
Qed.

Lemma str_in_middle needle a b : str_in needle (a ++ needle ++ b) = true.
Proof. apply str_in_app_r, str_in_prefix, prefix_app. Qed.

Lemma str_in_split needle hay :
  str_in needle hay = true -> exists a b, hay = a ++ needle ++ b.
Proof.
  induction hay as [| x hay IH].
  - destruct needle; simpl; [| discriminate].
    intros _. now exists "", "".
  - cbn [str_in]. destruct (String.prefix needle (String x hay)) eqn:Hp.
    + intros _. destruct (prefix_split _ _ Hp) as (rest & Hrest).
      exists "", rest. exact Hrest.
    + intros H. destruct (IH H) as (a & b & ->).
      now exists (String x a), b.
Qed.

Lemma str_in_grow needle hay suffix :
  str_in needle hay = true -> str_in needle (hay ++ suffix) = true.
Proof.
  intros H. destruct (str_in_split _ _ H) as (a & b & ->).
  rewrite !string_app_assoc. apply str_in_middle.
Qed.

Lemma prefix_grow needle hay suffix :
  String.prefix needle hay = true ->
  String.prefix needle (hay ++ suffix) = true.
Proof.
  intros H. destruct (prefix_split _ _ H) as (rest & ->).
  rewrite string_app_assoc. apply prefix_app.
Qed.

Lemma str_in_trans a b c :
  str_in a b = true -> str_in b c = true -> str_in a c = true.
Proof.
  intros Hab Hbc.
  destruct (str_in_split _ _ Hab) as (u & v & ->).
  destruct (str_in_split _ _ Hbc) as (u' & v' & ->).
  rewrite !string_app_assoc, <- (string_app_assoc u' u).
  apply str_in_middle.
Qed.
End substring_facts.

Lemma lookup_or_none (table : dict obsidian_knowledge.Example)
    (topic : string) :
  let found := if dict_mem topic table then dict_get topic table else None in
  (found = None <-> ~ In topic (dict_keys table))
  /\ (forall e, found = Some e -> In (topic, e) table).
Proof.
  simpl. destruct (dict_mem topic table) eqn:Hmem.
  - destruct (dict_mem_get _ _ Hmem) as (e & -> & Hin).
    apply dict_mem_true_iff in Hmem.
    split; [split; [discriminate | contradiction] |].
    now intros e' [= <-].
  - apply dict_mem_false_iff in Hmem.
    split; [tauto | discriminate].
Qed.

Section knowledge_properties.
Variable str_lower : string -> string.
Variable SYSTEM_CONTEXT : string.
Variables DATAVIEW_EXAMPLES TEMPLATER_EXAMPLES GENERAL_OBSIDIAN_TIPS
  : dict obsidian_knowledge.Example.
Variable COMMON_PROBLEMS : dict obsidian_knowledge.Problem.

Local Abbreviation knowledge_context :=
  (obsidian_knowledge.get_all_examples_as_context SYSTEM_CONTEXT
     DATAVIEW_EXAMPLES TEMPLATER_EXAMPLES GENERAL_OBSIDIAN_TIPS
     COMMON_PROBLEMS).
Local Abbreviation search_knowledge_base :=
  (obsidian_knowledge.search_knowledge_base str_lower
     DATAVIEW_EXAMPLES TEMPLATER_EXAMPLES GENERAL_OBSIDIAN_TIPS).
Local Abbreviation labelled_matches :=
  (obsidian_knowledge.labelled_matches str_lower).
Local Abbreviation matches := (obsidian_knowledge.matches str_lower).
Local Abbreviation question := obsidian_knowledge.question.
Local Abbreviation answer := obsidian_knowledge.answer.
Local Abbreviation problem := obsidian_knowledge.problem.
Local Abbreviation solution := obsidian_knowledge.solution.

Lemma add_example_contains (table : dict obsidian_knowledge.Example) :
  forall (context : string),
    (forall needle, str_in needle context = true ->
       str_in needle (fold_left obsidian_knowledge.add_example table context)
       = true)
    /\ (forall k e, In (k, e) table ->
          str_in (question e)
            (fold_left obsidian_knowledge.add_example table context) = true
          /\ str_in (answer e)
               (fold_left obsidian_knowledge.add_example table context)
             = true).
Proof.
  induction table as [| [k0 e0] table IH]; intros context; simpl.
  - split; [auto | intros k e []].
  - destruct (IH (obsidian_knowledge.add_example context (k0, e0)))
      as (Hkeep & Hin).
    assert (Hgrow : forall needle, str_in needle context = true ->
              str_in needle (obsidian_knowledge.add_example context (k0, e0))
              = true).
    { intros needle H. unfold obsidian_knowledge.add_example.
      cbv zeta. now apply str_in_grow, str_in_grow. }
    split; [intros needle H; apply Hkeep, Hgrow, H |].
    intros k e [[= <- <-] | Hrest]; [| now apply (Hin k e)].
    split; apply Hkeep; unfold obsidian_knowledge.add_example;
      cbv zeta; cbn [snd].
    + apply str_in_grow, str_in_app_r, str_in_app_r.
      apply str_in_prefix, prefix_app.
    + apply str_in_app_r, str_in_prefix, prefix_app.
Qed.

Lemma add_problem_contains (table : dict obsidian_knowledge.Problem) :
  forall (context : string),
    (forall needle, str_in needle context = true ->
       str_in needle (fold_left obsidian_knowledge.add_problem table context)
       = true)
    /\ (forall k e, In (k, e) table ->
          str_in (problem e)
            (fold_left obsidian_knowledge.add_problem table context) = true
          /\ str_in (solution e)
               (fold_left obsidian_knowledge.add_problem table context)
             = true).
Proof.
  induction table as [| [k0 e0] table IH]; intros context; simpl.
  - split; [auto | intros k e []].
  - destruct (IH (obsidian_knowledge.add_problem context (k0, e0)))
      as (Hkeep & Hin).
    assert (Hgrow : forall needle, str_in needle context = true ->
              str_in needle (obsidian_knowledge.add_problem context (k0, e0))
              = true).
    { intros needle H. unfold obsidian_knowledge.add_problem.
      cbv zeta. now apply str_in_grow, str_in_grow. }
    split; [intros needle H; apply Hkeep, Hgrow, H |].
    intros k e [[= <- <-] | Hrest]; [| now apply (Hin k e)].
    split; apply Hkeep; unfold obsidian_knowledge.add_problem;
      cbv zeta; cbn [snd].
    + apply str_in_grow, str_in_app_r, str_in_app_r, str_in_app_r.
      apply str_in_prefix, prefix_app.
    + apply str_in_app_r, str_in_app_r, str_in_prefix, prefix_app.
Qed.

Lemma add_example_prefix (table : dict obsidian_knowledge.Example) :
  forall (needle context : string),
    String.prefix needle context = true ->
    String.prefix needle
      (fold_left obsidian_knowledge.add_example table context) = true.
Proof.
  induction table as [| item table IH]; intros needle context H; simpl;
    [exact H |].
  apply IH. unfold obsidian_knowledge.add_example. cbv zeta.
  now apply prefix_grow, prefix_grow.
Qed.

Lemma add_problem_prefix (table : dict obsidian_knowledge.Problem) :
  forall (needle context : string),
    String.prefix needle context = true ->
    String.prefix needle
      (fold_left obsidian_knowledge.add_problem table context) = true.
Proof.
  induction table as [| item table IH]; intros needle context H; simpl;
    [exact H |].
  apply IH. unfold obsidian_knowledge.add_problem. cbv zeta.
  now apply prefix_grow, prefix_grow.
Qed.

(** X21. The text [get_all_examples_as_context] builds starts with the role
    header followed by [SYSTEM_CONTEXT], and contains the question and the
    answer of every entry of the three example tables and the problem and
    the solution of every entry of [COMMON_PROBLEMS].  When that text is
    the knowledge text of the session, whatever it contains is also in the
    system prompt of the chat adapter and in the prompt opening of the
    completion adapter, in both modes. *)
Theorem knowledge_context_complete :
  String.prefix ("=== YOUR ROLE ===" ++ nl ++ SYSTEM_CONTEXT)
    knowledge_context = true
  /\ (forall k e,
        In (k, e) DATAVIEW_EXAMPLES \/ In (k, e) TEMPLATER_EXAMPLES
        \/ In (k, e) GENERAL_OBSIDIAN_TIPS ->
        str_in (question e) knowledge_context = true
        /\ str_in (answer e) knowledge_context = true)
  /\ (forall k e,
        In (k, e) COMMON_PROBLEMS ->
        str_in (problem e) knowledge_context = true
        /\ str_in (solution e) knowledge_context = true)
  /\ (forall (deep_instructions normal_instructions : string) env
             (use_deep_research : bool) (needle : string),
        get_all_examples_as_context env = knowledge_context ->
        str_in needle knowledge_context = true ->
        str_in needle
          (openai_system_prompt deep_instructions normal_instructions env
             use_deep_research) = true
        /\ str_in needle
             (huggingface_preamble deep_instructions normal_instructions env
                use_deep_research) = true).
Proof.
  unfold obsidian_knowledge.get_all_examples_as_context. cbv zeta.
  pose proof (fun t c => proj1 (add_example_contains t c)) as Hkeep.
  pose proof (fun t c => proj2 (add_example_contains t c)) as Hin.
  pose proof (fun t c => proj1 (add_problem_contains t c)) as Hkeep_p.
  pose proof (fun t c => proj2 (add_problem_contains t c)) as Hin_p.
  split.
  { apply add_problem_prefix, prefix_grow, add_example_prefix, prefix_grow,
      add_example_prefix, prefix_grow, add_example_prefix, prefix_grow.
    change ("" ++ "=== YOUR ROLE ===" ++ nl) with ("=== YOUR ROLE ===" ++ nl).
    rewrite <- (string_app_assoc ("=== YOUR ROLE ===" ++ nl) SYSTEM_CONTEXT).
    rewrite (string_app_assoc "=== YOUR ROLE ===" nl SYSTEM_CONTEXT).
    apply prefix_app. }
  split.
  { intros k e [H | [H | H]].
    - destruct (Hin DATAVIEW_EXAMPLES
                  ((("" ++ "=== YOUR ROLE ===" ++ nl)
                    ++ SYSTEM_CONTEXT ++ nl ++ nl)
                   ++ "=== DATAVIEW EXAMPLES ===" ++ nl) k e H) as [Hq Ha].
      split; apply Hkeep_p, str_in_grow, Hkeep, str_in_grow, Hkeep,
               str_in_grow; assumption.
    - destruct (Hin TEMPLATER_EXAMPLES
                  (fold_left obsidian_knowledge.add_example DATAVIEW_EXAMPLES
                     ((("" ++ "=== YOUR ROLE ===" ++ nl)
                       ++ SYSTEM_CONTEXT ++ nl ++ nl)
                      ++ "=== DATAVIEW EXAMPLES ===" ++ nl)
                   ++ nl ++ "=== TEMPLATER EXAMPLES ===" ++ nl) k e H)
        as [Hq Ha].
      split; apply Hkeep_p, str_in_grow, Hkeep, str_in_grow; assumption.
    - split; apply Hkeep_p, str_in_grow; now apply (Hin _ _ k e). }
  split.
  { intros k e H. now apply (Hin_p _ _ k e). }
  intros deep_instructions normal_instructions env use_deep_research needle
    Henv Hneedle.
  unfold openai_system_prompt, huggingface_preamble. rewrite Henv.
  split; apply str_in_app_r, str_in_app_r, str_in_app_r, str_in_app_r,
           str_in_app_r, str_in_grow; exact Hneedle.
Qed.

(** X24. [get_dataview_example], [get_templater_example] and
    [get_general_tip] return [None] exactly when the topic is not a key of
    their table, and otherwise an entry that table holds under that
    topic. *)
Theorem knowledge_lookup_or_none (topic : string) :
  ((obsidian_knowledge.get_dataview_example DATAVIEW_EXAMPLES topic = None
    <-> ~ In topic (dict_keys DATAVIEW_EXAMPLES))
   /\ (forall e,
         obsidian_knowledge.get_dataview_example DATAVIEW_EXAMPLES topic
         = Some e -> In (topic, e) DATAVIEW_EXAMPLES))
  /\ ((obsidian_knowledge.get_templater_example TEMPLATER_EXAMPLES topic
       = None <-> ~ In topic (dict_keys TEMPLATER_EXAMPLES))
      /\ (forall e,
            obsidian_knowledge.get_templater_example TEMPLATER_EXAMPLES topic
            = Some e -> In (topic, e) TEMPLATER_EXAMPLES))
  /\ ((obsidian_knowledge.get_general_tip GENERAL_OBSIDIAN_TIPS topic = None
       <-> ~ In topic (dict_keys GENERAL_OBSIDIAN_TIPS))
      /\ (forall e,
            obsidian_knowledge.get_general_tip GENERAL_OBSIDIAN_TIPS topic
            = Some e -> In (topic, e) GENERAL_OBSIDIAN_TIPS)).
Proof.
  unfold obsidian_knowledge.get_dataview_example,
    obsidian_knowledge.get_templater_example,
    obsidian_knowledge.get_general_tip.
  split; [apply lookup_or_none |].
  split; apply lookup_or_none.
Qed.

Lemma search_table_closed (label term : string)
    (table : dict obsidian_knowledge.Example) :
  forall acc,
    obsidian_knowledge.search_table str_lower label term table acc
    = (acc ++ labelled_matches label term table)%list.
Proof.
  unfold obsidian_knowledge.search_table, obsidian_knowledge.labelled_matches.
  induction table as [| [k e] table IH]; intros acc; simpl.
  - now rewrite app_nil_r.
  - rewrite IH. destruct (matches term e); simpl; [| reflexivity].
    now rewrite <- app_assoc.
Qed.

Lemma search_knowledge_base_closed (search_term : string) :
  search_knowledge_base search_term
  = (labelled_matches "DataView" (str_lower search_term) DATAVIEW_EXAMPLES
     ++ labelled_matches "Templater" (str_lower search_term)
          TEMPLATER_EXAMPLES
     ++ labelled_matches "General Tip" (str_lower search_term)
          GENERAL_OBSIDIAN_TIPS)%list.
Proof.
  unfold obsidian_knowledge.search_knowledge_base. cbv zeta.
  rewrite !search_table_closed. simpl. now rewrite <- app_assoc.
Qed.

Lemma labelled_matches_In (label term : string)
    (table : dict obsidian_knowledge.Example) r :
  In r (labelled_matches label term table) <->
  exists k e, In (k, e) table /\ matches term e = true
              /\ r = {| obsidian_knowledge.result_type := label;
                        obsidian_knowledge.result_question := question e;
                        obsidian_knowledge.result_answer := answer e |}.
Proof.
  unfold obsidian_knowledge.labelled_matches.
  rewrite in_map_iff. split.
  - intros (e & <- & He). apply filter_In in He as [He Hm].
    apply in_map_iff in He as ([k e'] & <- & Hin). now exists k, e'.
  - intros (k & e & Hin & Hm & ->). exists e. split; [reflexivity |].
    apply filter_In. split; [| exact Hm].
    apply in_map_iff. now exists (k, e).
Qed.

(** X22. [search_knowledge_base] returns, in the order DataView, Templater,
    General Tip and in table order within each, exactly the entries of
    those three tables whose lower-cased question or answer contains the
    lower-cased search term, each labelled with its table; search terms
    that differ only in case give the same results. *)
Theorem search_knowledge_base_exact (search_term : string) :
  search_knowledge_base search_term
  = (labelled_matches "DataView" (str_lower search_term) DATAVIEW_EXAMPLES
     ++ labelled_matches "Templater" (str_lower search_term)
          TEMPLATER_EXAMPLES
     ++ labelled_matches "General Tip" (str_lower search_term)
          GENERAL_OBSIDIAN_TIPS)%list
  /\ (forall r,
        In r (search_knowledge_base search_term) <->
        exists label table k e,
          ((label = "DataView" /\ table = DATAVIEW_EXAMPLES)
           \/ (label = "Templater" /\ table = TEMPLATER_EXAMPLES)
           \/ (label = "General Tip" /\ table = GENERAL_OBSIDIAN_TIPS))
          /\ In (k, e) table
          /\ (str_in (str_lower search_term) (str_lower (question e))
              || str_in (str_lower search_term) (str_lower (answer e)))
             = true
          /\ r = {| obsidian_knowledge.result_type := label;
                    obsidian_knowledge.result_question := question e;
                    obsidian_knowledge.result_answer := answer e |})
  /\ (forall other_term,
        str_lower other_term = str_lower search_term ->
        search_knowledge_base other_term
        = search_knowledge_base search_term).
Proof.
  split; [apply search_knowledge_base_closed |].
  split.
  - intros r. rewrite search_knowledge_base_closed, !in_app_iff,
      !labelled_matches_In. split.
    + intros [(k & e & H) | [(k & e & H) | (k & e & H)]].
      * exists "DataView", DATAVIEW_EXAMPLES, k, e. tauto.
      * exists "Templater", TEMPLATER_EXAMPLES, k, e. tauto.
      * exists "General Tip", GENERAL_OBSIDIAN_TIPS, k, e. tauto.
    + intros (label & table & k & e & [[-> ->] | [[-> ->] | [-> ->]]] & H).
      * left. now exists k, e.
      * right. left. now exists k, e.
      * right. right. now exists k, e.
  - intros other_term H. rewrite !search_knowledge_base_closed. now rewrite H.
Qed.

Lemma labelled_matches_all (label : string)
    (table : dict obsidian_knowledge.Example) :
  labelled_matches label "" table
  = map (fun item =>
           {| obsidian_knowledge.result_type := label;
              obsidian_knowledge.result_question := question (snd item);
              obsidian_knowledge.result_answer := answer (snd item) |})
      table.
Proof.
  unfold obsidian_knowledge.labelled_matches.
  induction table as [| [k e] table IH]; simpl; [reflexivity |].
  unfold obsidian_knowledge.matches at 1. rewrite str_in_prefix
    by apply prefix_empty.
  simpl. now rewrite IH.
Qed.

(** X23. Searching for the empty string returns every entry of the three
    tables, since the empty string is contained in every text
    ([str.lower] maps the empty string to itself). *)
Theorem search_empty_term_returns_all :
  str_lower "" = "" ->
  search_knowledge_base ""
  = (map (fun item =>
            {| obsidian_knowledge.result_type := "DataView";
               obsidian_knowledge.result_question := question (snd item);
               obsidian_knowledge.result_answer := answer (snd item) |})
       DATAVIEW_EXAMPLES
     ++ map (fun item =>
               {| obsidian_knowledge.result_type := "Templater";
                  obsidian_knowledge.result_question := question (snd item);
                  obsidian_knowledge.result_answer := answer (snd item) |})
          TEMPLATER_EXAMPLES
     ++ map (fun item =>
               {| obsidian_knowledge.result_type := "General Tip";
                  obsidian_knowledge.result_question := question (snd item);
                  obsidian_knowledge.result_answer := answer (snd item) |})
          GENERAL_OBSIDIAN_TIPS)%list
  /\ len (search_knowledge_base "")
     = len DATAVIEW_EXAMPLES + len TEMPLATER_EXAMPLES
       + len GENERAL_OBSIDIAN_TIPS.
Proof.
  intros Hlower. rewrite search_knowledge_base_closed, Hlower.
  rewrite !labelled_matches_all. split; [reflexivity |].
  unfold len. rewrite !length_app, !length_map. lia.
Qed.
End knowledge_properties.

(* ================================================================= *)
(** ** The further properties at concrete inputs *)

Example clicks_through_a_session :
  map (fun r => (List.length (fst r),
                 match snd r with
                 | Ok ss =>
                     match ss_project_manager ss with
                     | Some manager => get_all_project_names manager
                     | None => []
                     end
                 | Raised _ => []
                 end))
    (session_runs ascii_lower ascii_strip "deep" "normal" example_secrets "KB"
       empty_session
       [ (idle_ui false, answering_provider "hi");
         (example_ui_create, answering_provider "hi");
         (example_ui_delete, answering_provider "hi");
         (example_ui_delete, answering_provider "hi") ])
  = [ (0%nat, ["General Questions"]);
      (0%nat, ["General Questions"; "Notes"]);
      (0%nat, ["Notes"]);
      (0%nat, ["Notes"]) ].
Proof. reflexivity. Qed.

Example search_in_example_tables :
  map obsidian_knowledge.result_type
    (obsidian_knowledge.search_knowledge_base ascii_lower
       obsidian_knowledge.example_dataview
       obsidian_knowledge.example_templater
       obsidian_knowledge.example_tips "TABLE")
  = ["DataView"; "Templater"].
Proof. reflexivity. Qed.

Lemma example_manager_invariant : store_invariant example_manager.
Proof.
  exact (store_invariant_step _ (OpCreate "B" "2025-10-29 14:31:00")
           (store_invariant_step _ (OpCreate "A" "2025-10-29 14:30:45")
              store_invariant_init)).
Qed.

Lemma create_project_new_witness :
  project_exists example_manager "C" = false
  /\ get_all_project_names
       (snd (create_project example_manager "C" "2025-10-29 14:40:00"))
     = ["A"; "B"; "C"].
Proof.
  split; [reflexivity |].
  destruct (create_project_new example_manager "C" "2025-10-29 14:40:00"
              eq_refl) as (_ & _ & Hnames & _).
  exact Hnames.
Defined.

Lemma failed_calls_change_nothing_witness :
  fst (manager_step example_manager (OpDelete "Z")) = false
  /\ snd (manager_step example_manager (OpDelete "Z")) = example_manager.
Proof.
  split; [reflexivity |].
  exact (proj2 (failed_calls_change_nothing example_manager (OpDelete "Z"))
           eq_refl).
Defined.

Lemma switch_to_project_existing_witness :
  project_exists example_manager "B" = true
  /\ current_project_name (snd (switch_to_project example_manager "B"))
     = Some "B".
Proof.
  split; [reflexivity |].
  destruct (switch_to_project_existing example_manager "B" eq_refl)
    as (_ & Hactive & _).
  exact Hactive.
Defined.

Lemma create_then_delete_witness :
  selector_invariant example_manager
  /\ project_exists example_manager "C" = false
  /\ snd (delete_project
            (snd (create_project example_manager "C" "2025-10-29 14:40:00"))
            "C")
     = example_manager.
Proof.
  assert (Hsel : selector_invariant example_manager)
    by exact (or_introl eq_refl).
  split; [exact Hsel |]. split; [reflexivity |].
  exact (create_then_delete example_manager "C" "2025-10-29 14:40:00" Hsel
           eq_refl).
Defined.

Lemma manager_calls_keep_transcripts_witness :
  project_exists example_manager "A" = true
  /\ project_exists (snd (manager_step example_manager (OpDelete "B"))) "A"
     = true
  /\ dict_get "A"
       (projects (snd (manager_step example_manager (OpDelete "B"))))
     = dict_get "A" (projects example_manager).
Proof.
  split; [reflexivity |]. split; [reflexivity |].
  exact (manager_calls_keep_transcripts example_manager (OpDelete "B") "A"
           eq_refl eq_refl).
Defined.

Lemma reachable_store_consistent_witness :
  get_current_project example_manager
  = Some (ConversationProject_init "A" "2025-10-29 14:30:45")
  /\ current_project_name example_manager = Some "A".
Proof.
  split; [reflexivity |].
  pose proof (reachable_store_consistent
                [OpCreate "A" "2025-10-29 14:30:45";
                 OpCreate "B" "2025-10-29 14:31:00"]) as H.
  apply Forall_inv_tail, Forall_inv in H.
  destruct H as (_ & _ & _ & _ & Hcurrent).
  exact (proj1 (Hcurrent _ eq_refl)).
Defined.

Lemma success_iff_provider_text_witness :
  selected_credential ascii_lower example_env_openai = Some "sk-test"
  /\ exists req,
       run (answering_provider "  hi  ")
         (send_message_to_ai ascii_lower ascii_strip "deep" "normal"
            example_env_openai "hello" [] false)
       = ([req], Ok {| success := true; response := "hi" |}).
Proof.
  split; [reflexivity |].
  destruct (success_iff_provider_text ascii_lower ascii_strip "deep" "normal"
              example_env_openai "hello" [] false
              (answering_provider "  hi  ") "sk-test" eq_refl)
    as (req & result & Hrun & _ & Htext).
  exists req. rewrite Hrun.
  assert (Hreq : provider_text (answering_provider "  hi  ") req
                 = Some "  hi  ") by now destruct req.
  now rewrite (Htext _ Hreq).
Defined.

Lemma request_carries_selection_witness :
  selected_credential ascii_lower example_env_huggingface = Some "hf-test"
  /\ exists r,
       first_request
         (send_message_to_ai ascii_lower ascii_strip "deep" "normal"
            example_env_huggingface "hello" [] false)
       = Some (ReqPost r)
       /\ hf_timeout r = 30
       /\ hf_api_url r
          = "https://api-inference.huggingface.co/models/microsoft/DialoGPT-medium".
Proof.
  split; [reflexivity |].
  destruct (request_carries_selection ascii_lower ascii_strip "deep" "normal"
              example_env_huggingface "hello" [] false "hf-test" eq_refl)
    as (req & Hreq & Hshape).
  destruct req as [r | r]; [discriminate Hreq |].
  exists r. split; [exact Hreq |].
  destruct Hshape as (Htimeout & Hurl & _). split; [exact Htimeout | exact Hurl].
Defined.

Lemma chat_turn_recorded_witness :
  get_current_project example_chat_manager = Some example_project
  /\ truthy (Some "hello") = true
  /\ exists manager' p',
       snd (run (raising_provider "Connection refused")
              (render_chat_interface ascii_lower ascii_strip "deep" "normal"
                 example_env_openai example_chat_manager (Some "hello")))
       = Ok manager'
       /\ get_current_project manager' = Some p'
       /\ message_count p' = 4.
Proof.
  split; [reflexivity |]. split; [reflexivity |].
  destruct (chat_turn_recorded ascii_lower ascii_strip "deep" "normal"
              example_env_openai example_chat_manager example_project "hello"
              (raising_provider "Connection refused") eq_refl eq_refl)
    as (sent & result & manager' & p' & Hrun & _ & _ & Hcur & _ & Hcount & _).
  exists manager', p'. rewrite Hrun. split; [reflexivity |].
  split; [exact Hcur | exact Hcount].
Defined.

Lemma chat_without_input_witness :
  truthy (Some "") = false
  /\ render_chat_interface ascii_lower ascii_strip "deep" "normal"
       example_env_openai example_chat_manager (Some "")
     = Ret example_chat_manager.
Proof.
  split; [reflexivity |].
  exact (proj1 (chat_without_input ascii_lower ascii_strip "deep" "normal"
                  example_env_openai example_chat_manager (Some "")
                  (or_introl eq_refl))).
Defined.


Lemma sidebar_adds_only_stripped_names_witness :
  In "Notes"
    (get_all_project_names
       (app_manager
          (flow_state
             (sidebar_projects ascii_strip example_ui_create example_manager
                (set_selected_openai_model example_env_openai
                   "gpt-4o-mini")))))
  /\ (In "Notes" (get_all_project_names (app_manager example_app))
      \/ (ui_create_clicked example_ui_create = true
          /\ "Notes" = ascii_strip (ui_new_project_name example_ui_create)
          /\ "Notes" <> "")).
Proof.
  assert (Hin : In "Notes"
                  (get_all_project_names
                     (app_manager
                        (flow_state
                           (sidebar_projects ascii_strip example_ui_create
                              example_manager
                              (set_selected_openai_model example_env_openai
                                 "gpt-4o-mini"))))))
    by (simpl; auto).
  split; [exact Hin |].
  exact (sidebar_adds_only_stripped_names ascii_strip example_ui_create
           example_app _ "Notes" eq_refl Hin).
Defined.

Lemma research_toggle_selects_model_witness :
  get_current_project (app_manager example_app)
  = Some (ConversationProject_init "A" "2025-10-29 14:30:45")
  /\ exists app',
       render_sidebar ascii_strip (idle_ui true) example_app = Ok (Rerun app')
       /\ selected_openai_model (app_env app') = "gpt-4".
Proof.
  split; [reflexivity |].
  destruct (research_toggle_selects_model ascii_strip (idle_ui true)
              example_app
              (ConversationProject_init "A" "2025-10-29 14:30:45")
              eq_refl (fun _ => eq_refl) eq_refl eq_refl)
    as (app' & Hrun & _ & _ & Hmodel).
  exists app'. split; [exact Hrun |]. exact (proj1 (proj2 Hmodel)).
Defined.

Lemma sidebar_delete_guarded_witness :
  get_current_project example_manager
  = Some (ConversationProject_init "A" "2025-10-29 14:30:45")
  /\ exists m',
       sidebar_projects ascii_strip example_ui_delete example_manager
         example_env_openai
       = Rerun {| app_manager := m'; app_env := example_env_openai |}
       /\ get_all_project_names m' = ["B"].
Proof.
  split; [reflexivity |].
  pose proof (sidebar_delete_guarded ascii_strip example_ui_delete
                example_manager example_env_openai
                (ConversationProject_init "A" "2025-10-29 14:30:45")
                example_manager_invariant eq_refl eq_refl (fun _ => eq_refl)
                eq_refl eq_refl eq_refl) as H.
  change (get_project_count example_manager >? 1) with true in H.
  cbv iota in H. destruct H as (m' & Hrun & _ & _ & Hnames & _).
  exists m'. split; [exact Hrun |]. rewrite Hnames. reflexivity.
Defined.

Lemma knowledge_context_complete_witness :
  In ("linking",
      {| obsidian_knowledge.question := "How do I link notes together?";
         obsidian_knowledge.answer := "Use [[note name]]." |})
    obsidian_knowledge.example_tips
  /\ str_in "Use [[note name]]."
       (obsidian_knowledge.get_all_examples_as_context "You are an expert."
          obsidian_knowledge.example_dataview
          obsidian_knowledge.example_templater
          obsidian_knowledge.example_tips
          obsidian_knowledge.example_problems) = true.
Proof.
  assert (Hin : In ("linking",
                    {| obsidian_knowledge.question :=
                         "How do I link notes together?";
                       obsidian_knowledge.answer := "Use [[note name]]." |})
                  obsidian_knowledge.example_tips) by (simpl; auto).
  split; [exact Hin |].
  destruct (knowledge_context_complete "You are an expert."
              obsidian_knowledge.example_dataview
              obsidian_knowledge.example_templater
              obsidian_knowledge.example_tips
              obsidian_knowledge.example_problems) as (_ & Hentries & _).
  exact (proj2 (Hentries _ _ (or_intror (or_intror Hin)))).
Defined.

Lemma search_knowledge_base_exact_witness :
  ascii_lower "Table" = ascii_lower "TABLE"
  /\ obsidian_knowledge.search_knowledge_base ascii_lower
       obsidian_knowledge.example_dataview
       obsidian_knowledge.example_templater
       obsidian_knowledge.example_tips "Table"
     = obsidian_knowledge.search_knowledge_base ascii_lower
         obsidian_knowledge.example_dataview
         obsidian_knowledge.example_templater
         obsidian_knowledge.example_tips "TABLE".
Proof.
  split; [reflexivity |].
  destruct (search_knowledge_base_exact ascii_lower
              obsidian_knowledge.example_dataview
              obsidian_knowledge.example_templater
              obsidian_knowledge.example_tips "TABLE") as (_ & _ & Hcase).
  exact (Hcase "Table" eq_refl).
Defined.

Lemma search_empty_term_returns_all_witness :
  ascii_lower "" = ""
  /\ len (obsidian_knowledge.search_knowledge_base ascii_lower
            obsidian_knowledge.example_dataview
            obsidian_knowledge.example_templater
            obsidian_knowledge.example_tips "")
     = 4.
Proof.
  split; [reflexivity |].
  destruct (search_empty_term_returns_all ascii_lower
              obsidian_knowledge.example_dataview
              obsidian_knowledge.example_templater
              obsidian_knowledge.example_tips eq_refl) as (_ & Hlen).
  exact Hlen.
Defined.

Lemma knowledge_lookup_or_none_witness :
  obsidian_knowledge.get_templater_example
    obsidian_knowledge.example_templater "daily_note"
  = Some {| obsidian_knowledge.question :=
              "How do I create a daily note template?";
            obsidian_knowledge.answer :=
              "Use tp.date.now in a table of fields." |}
  /\ In ("daily_note",
         {| obsidian_knowledge.question :=
              "How do I create a daily note template?";
            obsidian_knowledge.answer :=
              "Use tp.date.now in a table of fields." |})
       obsidian_knowledge.example_templater.
Proof.
  split; [reflexivity |].
  destruct (knowledge_lookup_or_none obsidian_knowledge.example_dataview
              obsidian_knowledge.example_templater
              obsidian_knowledge.example_tips "daily_note")
    as (_ & (_ & Hfound) & _).
  exact (Hfound _ eq_refl).
Defined.
